(** * VideoActionViewer: classification and merging of VideoAnnotator outputs

    A shallow embedding of the data merger utility (detectFileType,
    detectJSONType and its content sniffers, parseCompleteResults,
    mergeAnnotationData, batchDetectFileTypes, validateFileSet,
    getFilesSummary) and of the handlers of the job wizard, together with
    the properties the specification states about the merger and further
    properties read off the code.

    Conventions of the embedding.
    - A JavaScript number is an IEEE 754 binary64 value: [float].
    - A value obtained from [JSON.parse] is a [JSON] tree; [undefined] is the
      [None] of [option JSON].
    - An operation that can throw returns a [Result]; [try]/[catch] is
      [match] on it. The statements of a [try] block that assign local
      variables return the state at the throw with what was thrown.
    - An array of objects is a list of addresses into a heap, so that an
      array can list an object twice and [===] is the equality of
      addresses.
    - [await] is sequencing: the functions below run their steps in program
      order, one at a time.
    - The builtins of the language ([Builtins]) and the modules the merger
      imports ([Collaborators]) are interfaces: every definition and theorem
      is stated for an arbitrary implementation of them. *)

From Stdlib Require Import String Ascii List Bool Arith PeanoNat Lia ZArith.
From Stdlib Require Import Floats Permutation Sorted.
From Stdlib Require Import DecimalString.
Import ListNotations.
Local Open Scope string_scope.
Local Open Scope list_scope.

Set Implicit Arguments.
(* Decimal literals are rounded to the nearest binary64 value, as the
   JavaScript engine rounds them. *)
Set Warnings "-inexact-float".

(** ** JavaScript values and exceptions *)

#[warnings="-register-all"]
Inductive JSON : Type :=
  | JNull
  | JBool (b : bool)
  | JNum (x : float)
  | JStr (s : string)
  | JArr (items : list JSON)
  | JObj (props : list (string * JSON)).

(** A JavaScript value of type [any] that came out of [JSON.parse], or
    [undefined]. *)
Definition JsValue := option JSON.

(** What a [throw] carries: an [Error] object with its message, or any other
    value ([error instanceof Error] is false for it). *)
Inductive Thrown : Type :=
  | ErrorObject (message : string)
  | OtherValue.

Inductive Result (A : Type) : Type :=
  | Ok (a : A)
  | Throw (e : Thrown).
Arguments Ok {A} a.
Arguments Throw {A} e.

Definition bind {A B : Type} (c : Result A) (k : A -> Result B) : Result B :=
  match c with
  | Ok a => k a
  | Throw e => Throw e
  end.

Declare Scope js_scope.
Delimit Scope js_scope with js.
Notation "x <- c ;; k" := (bind c (fun x => k))
  (at level 61, c at next level, right associativity) : js_scope.
Local Open Scope js_scope.

(** [try { return c } catch { return false }] *)
Definition catch_false (c : Result bool) : bool :=
  match c with
  | Ok b => b
  | Throw _ => false
  end.

(** [error instanceof Error ? error.message : 'Unknown error'] *)
Definition error_message (e : Thrown) : string :=
  match e with
  | ErrorObject m => m
  | OtherValue => "Unknown error"
  end.

Module JS.

Definition is_nan (x : float) : bool := negb (PrimFloat.eqb x x).

(** ToBoolean. *)
Definition truthy (v : JSON) : bool :=
  match v with
  | JNull => false
  | JBool b => b
  | JNum x => negb (PrimFloat.eqb x 0 || is_nan x)
  | JStr s => negb (String.eqb s "")
  | JArr _ => true
  | JObj _ => true
  end.

Definition truthy_value (v : JsValue) : bool :=
  match v with
  | Some j => truthy j
  | None => false
  end.

Fixpoint lookup (k : string) (ps : list (string * JSON)) : JsValue :=
  match ps with
  | [] => None
  | (k', v) :: rest => if String.eqb k k' then Some v else lookup k rest
  end.

Definition isArray (v : JSON) : bool :=
  match v with
  | JArr _ => true
  | _ => false
  end.

Definition isArray_value (v : JsValue) : bool :=
  match v with
  | Some j => isArray j
  | None => false
  end.

(** The message of the TypeError raised by the engine; engine specific. *)
Definition type_error (what : string) : Thrown :=
  ErrorObject ("TypeError: " ++ what).

(** [v.k] for one of the property names the program reads (video_path,
    pipeline_results, config, start_time, total_duration, annotations,
    results, scenes, person, face, scene, processing_time): an own property
    of an object, [undefined] on arrays and primitives (none of these names
    is on a prototype), a TypeError on [null]. *)
Definition get (k : string) (v : JSON) : Result JsValue :=
  match v with
  | JNull => Throw (type_error ("cannot read property " ++ k ++ " of null"))
  | JObj ps => Ok (lookup k ps)
  | _ => Ok None
  end.

(** [v?.k] on a value that may be [undefined] or [null]. *)
Definition get_opt (k : string) (v : JsValue) : JsValue :=
  match v with
  | Some (JObj ps) => lookup k ps
  | _ => None
  end.

(** [v[0]]. *)
Definition index0 (v : JSON) : Result JsValue :=
  match v with
  | JNull => Throw (type_error "cannot read property 0 of null")
  | JArr items => Ok (hd_error items)
  | JStr s =>
      Ok (match s with
          | EmptyString => None
          | String c _ => Some (JStr (String c EmptyString))
          end)
  | JObj ps => Ok (lookup "0" ps)
  | _ => Ok None
  end.

(** The TypeError of the conversion of an object to a primitive. *)
Definition conversion_error : Thrown :=
  type_error "cannot convert object to primitive value".

(** A conversion that returns or throws that error. *)
Definition converted {A : Type} (r : option A) : Result A :=
  match r with
  | Some a => Ok a
  | None => Throw conversion_error
  end.

(** ['k' in v] for one of the field names the sniffers test (keypoints,
    bbox, start_time, startTime, scene_type, face_id, attributes): an own
    property of an object, never a property of an array, a TypeError on a
    primitive. *)
Definition has_key (k : string) (v : JSON) : Result bool :=
  match v with
  | JObj ps => Ok (match lookup k ps with Some _ => true | None => false end)
  | JArr _ => Ok false
  | _ => Throw (type_error ("cannot use 'in' operator to search for " ++ k))
  end.

(** [a && b] where only the truthiness of the result is used. *)
Definition and_then (a : bool) (b : Result bool) : Result bool :=
  if a then b else Ok false.

(** [a || b] where only the truthiness of the result is used. *)
Definition or_else (a : bool) (b : Result bool) : Result bool :=
  if a then Ok true else b.

End JS.

(** ** Strings *)

Module Str.

Definition lower_ascii (c : ascii) : ascii :=
  let n := nat_of_ascii c in
  if ((65 <=? n) && (n <=? 90))%nat then ascii_of_nat (n + 32) else c.

(** [s.toLowerCase()], on ASCII text. *)
Fixpoint toLowerCase (s : string) : string :=
  match s with
  | EmptyString => EmptyString
  | String c rest => String (lower_ascii c) (toLowerCase rest)
  end.

(** [s.startsWith(p)] *)
Definition startsWith (p s : string) : bool := String.prefix p s.

(** [s.includes(p)] *)
Fixpoint includes (p s : string) : bool :=
  if String.prefix p s then true
  else match s with
       | EmptyString => false
       | String _ rest => includes p rest
       end.

(** [s.split('.').pop()]: the text after the last dot, the whole of [s]
    when it has no dot. [acc] is the segment being read. *)
Fixpoint last_segment (acc s : string) : string :=
  match s with
  | EmptyString => acc
  | String c rest =>
      if Ascii.eqb c "."%char then last_segment EmptyString rest
      else last_segment (acc ++ String c EmptyString) rest
  end.

Definition is_space (c : ascii) : bool :=
  let n := nat_of_ascii c in
  ((n =? 32) || ((9 <=? n) && (n <=? 13)))%nat.

(** The leading part of [s.trim()], on ASCII text; the trailing part does
    not matter to [startsWith]. *)
Fixpoint trimStart (s : string) : string :=
  match s with
  | EmptyString => EmptyString
  | String c rest => if is_space c then trimStart rest else s
  end.

(** [blob.slice(0, n).text()], on ASCII text. *)
Definition slice0 (n : nat) (s : string) : string := String.substring 0 n s.

Definition mem (s : string) (l : list string) : bool :=
  existsb (String.eqb s) l.

End Str.

(** ** Files and classification results *)

Record File : Type := mkFile {
  name : string;
  mime : string;      (* File.type *)
  content : string    (* what file.text() resolves to *)
}.

Inductive FileType : Type :=
  | video
  | person_tracking
  | speech_recognition
  | speaker_diarization
  | scene_detection
  | face_analysis
  | complete_results
  | audio
  | unknown.

Definition FileType_eqb (a b : FileType) : bool :=
  match a, b with
  | video, video
  | person_tracking, person_tracking
  | speech_recognition, speech_recognition
  | speaker_diarization, speaker_diarization
  | scene_detection, scene_detection
  | face_analysis, face_analysis
  | complete_results, complete_results
  | audio, audio
  | unknown, unknown => true
  | _, _ => false
  end.

(** The string a [type] is in the source. *)
Definition type_name (t : FileType) : string :=
  match t with
  | video => "video"
  | person_tracking => "person_tracking"
  | speech_recognition => "speech_recognition"
  | speaker_diarization => "speaker_diarization"
  | scene_detection => "scene_detection"
  | face_analysis => "face_analysis"
  | complete_results => "complete_results"
  | audio => "audio"
  | unknown => "unknown"
  end.

Record DetectedFile : Type := mkDetected {
  file : File;
  type : FileType;
  pipeline : option string;
  confidence : float
}.

(** An array of DetectedFile holds references to objects, and the merge
    compares two of them by identity ([===]): an object is known by its
    address. The program reads the fields of a DetectedFile and never writes
    them, so the heap is a function from addresses to fields. *)
Definition Address : Type := nat.

Definition Heap : Type := Address -> DetectedFile.

(** [a === b] where [b] is a reference or [undefined]. *)
Definition same_object (a : Address) (b : option Address) : bool :=
  match b with
  | Some b => (a =? b)%nat
  | None => false
  end.

(** ** The environment of the program *)

(** The builtins of the language the program calls on values whose type is
    only known at run time. *)
Class Builtins : Type := {
  (** [JSON.parse(text)]: the parsed value, or the SyntaxError it throws. *)
  JSON_parse : string -> Result JSON;
  (** [Object.values(v)], in the engine's property order. *)
  Object_values : JSON -> list JSON;
  (** [a + b] on values of type [any]: the sum or the concatenation, or
      [None] when the conversion of an operand to a primitive throws its
      TypeError (as on an object that has a [toString] key of its own, which
      is not callable). *)
  js_plus : JSON -> JSON -> option JSON;
  (** ToNumber, as the relational operators apply it to a value that is not
      a number: the number, or [None] when the same conversion throws. *)
  ToNumber : JSON -> option float
}.

(** What loading a file into a [video] element ends in. *)
Inductive VideoLoad : Type :=
  | LoadedMetadata (duration videoWidth videoHeight : float)
  | LoadError.

(** The modules the merger imports (./webvtt, ./rttm, ./coco, ./scene), the
    browser's video element and its clock. A decoder returns the array of the
    records it read or throws. *)
Class Collaborators : Type := {
  parseWebVTT : File -> Result (list JSON);
  parseRTTM : File -> Result (list JSON);
  parseCOCOPersonData : File -> Result (list JSON);
  parseSceneDetection : File -> Result (list JSON);
  load_video : File -> VideoLoad;
  (** [Date.now()] at the start and at the end of a merge, in milliseconds,
      and [new Date().toISOString()] in between. *)
  Date_now_start : Z;
  Date_now_end : Z;
  Date_toISOString : string
}.

(** ** Content sniffers *)

Section Classifier.
Context {B : Builtins}.

Definition isValidWebVTT (f : File) : bool :=
  let firstLine := Str.slice0 100 (content f) in
  Str.startsWith "WEBVTT" (Str.trimStart firstLine).

Definition isValidRTTM (f : File) : bool :=
  let firstLines := Str.slice0 1000 (content f) in
  Str.includes "SPEAKER" firstLines.

(** ['k1' in x && 'k2' in x && ...] *)
Fixpoint has_all_keys (keys : list string) (x : JSON) : Result bool :=
  match keys with
  | [] => Ok true
  | k :: rest => b <- JS.has_key k x ;; JS.and_then b (has_all_keys rest x)
  end.

(** ['k1' in x || 'k2' in x || ...] *)
Fixpoint has_any_key (keys : list string) (x : JSON) : Result bool :=
  match keys with
  | [] => Ok false
  | k :: rest => b <- JS.has_key k x ;; JS.or_else b (has_any_key rest x)
  end.

(** [x && test(x)] for an [x] that may be [undefined]. *)
Definition guarded (x : JsValue) (test : JSON -> Result bool) : Result bool :=
  match x with
  | Some j => JS.and_then (JS.truthy j) (test j)
  | None => Ok false
  end.

(** [data.p && Array.isArray(data.p)] *)
Definition has_array (p : string) (data : JSON) : Result bool :=
  v <- JS.get p data ;;
  Ok (JS.truthy_value v && JS.isArray_value v).

(** [data.p && data.p[0] && 'k' in data.p[0]] *)
Definition first_of_has (p k : string) (data : JSON) : Result bool :=
  v <- JS.get p data ;;
  guarded v (fun a => e <- JS.index0 a ;; guarded e (has_all_keys [k])).

Definition isValidCOCOPersonData (f : File) : bool :=
  catch_false (
    let sample := Str.slice0 2000 (content f) in
    data <- JSON_parse sample ;;
    match data with
    | JArr items =>
        JS.or_else (length items =? 0)%nat
          (guarded (hd_error items) (has_all_keys ["keypoints"; "bbox"]))
    | _ =>
        a <- has_array "annotations" data ;;
        JS.or_else a (has_array "results" data)
    end).

Definition isValidSceneDetection (f : File) : bool :=
  catch_false (
    let sample := Str.slice0 2000 (content f) in
    data <- JSON_parse sample ;;
    match data with
    | JArr items =>
        JS.or_else (length items =? 0)%nat
          (guarded (hd_error items) (has_any_key ["start_time"; "startTime"]))
    | _ =>
        r <- has_array "results" data ;;
        JS.or_else r (
          s <- has_array "scenes" data ;;
          JS.or_else s (first_of_has "annotations" "scene_type" data))
    end).

Definition isValidCompleteResults (f : File) : bool :=
  catch_false (
    let text := content f in
    data <- JSON_parse text ;;
    video_path <- JS.get "video_path" data ;;
    JS.and_then (JS.truthy_value video_path) (
      pipeline_results <- JS.get "pipeline_results" data ;;
      JS.and_then (JS.truthy_value pipeline_results) (
        config <- JS.get "config" data ;;
        JS.and_then (JS.truthy_value config) (
          start_time <- JS.get "start_time" data ;;
          JS.and_then (JS.truthy_value start_time) (
            total_duration <- JS.get "total_duration" data ;;
            Ok (match total_duration with Some _ => true | None => false end)))))).

Definition isValidFaceAnalysis (f : File) : bool :=
  catch_false (
    let sample := Str.slice0 2000 (content f) in
    data <- JSON_parse sample ;;
    match data with
    | JArr items =>
        JS.or_else (length items =? 0)%nat
          (guarded (hd_error items) (has_all_keys ["face_id"; "attributes"]))
    | _ =>
        a <- first_of_has "annotations" "face_id" data ;;
        JS.or_else a (first_of_has "results" "face_id" data)
    end).

(** ** The classifier *)

Definition detected (f : File) (t : FileType) (c : float) : DetectedFile :=
  {| file := f; type := t; pipeline := Some (type_name t); confidence := c |}.

(** The two results that carry no pipeline label. *)
Definition detected_plain (f : File) (t : FileType) (c : float) : DetectedFile :=
  {| file := f; type := t; pipeline := None; confidence := c |}.

Definition detectJSONType (f : File) : DetectedFile :=
  if isValidCompleteResults f then detected f complete_results 0.95
  else
    match JSON_parse (Str.slice0 5000 (content f)) with
    | Throw _ => detected_plain f unknown 0.0
    | Ok _ =>
        if isValidFaceAnalysis f then detected f face_analysis 0.8
        else if isValidCOCOPersonData f then detected f person_tracking 0.8
        else if isValidSceneDetection f then detected f scene_detection 0.8
        else if Str.includes "complete_results" (name f)
          then detected f complete_results 0.7
        else if Str.includes "face_annotations" (name f)
                || Str.includes "laion_face" (name f)
          then detected f face_analysis 0.6
        else if Str.includes "person" (name f) || Str.includes "tracking" (name f)
          then detected f person_tracking 0.5
        else if Str.includes "scene" (name f)
          then detected f scene_detection 0.5
        else detected_plain f unknown 0.2
    end.

Definition detectFileType (f : File) : DetectedFile :=
  let extension := Str.last_segment "" (Str.toLowerCase (name f)) in
  let mimeType := Str.toLowerCase (mime f) in
  if Str.mem extension ["mp4"; "webm"; "avi"; "mov"]
     || Str.startsWith "video/" mimeType
  then detected_plain f video 0.95
  else if Str.mem extension ["wav"; "mp3"; "aac"; "ogg"]
          || Str.startsWith "audio/" mimeType
  then detected_plain f audio 0.95
  else if String.eqb extension "vtt" || Str.includes "speech_recognition" (name f)
  then detected f speech_recognition (if isValidWebVTT f then 0.9 else 0.3)
  else if String.eqb extension "rttm" || Str.includes "speaker_diarization" (name f)
  then detected f speaker_diarization (if isValidRTTM f then 0.9 else 0.3)
  else if String.eqb extension "json" || String.eqb mimeType "application/json"
  then detectJSONType f
  else detected_plain f unknown 0.0.

(** ** Batch classification *)

(** [Array.prototype.sort(compare)]: the sort is stable, and an element [x]
    goes behind [y] when [compare(x, y) > 0]. Insertion from the right end
    computes that order. *)
Fixpoint sort_insert {A : Type} (compare : A -> A -> float) (x : A) (l : list A)
  : list A :=
  match l with
  | [] => [x]
  | y :: rest =>
      if PrimFloat.ltb 0 (compare x y) then y :: sort_insert compare x rest
      else x :: l
  end.

Definition Array_sort {A : Type} (compare : A -> A -> float) (l : list A) : list A :=
  fold_right (sort_insert compare) [] l.

Definition batchDetectFileTypes (files : list File) : list DetectedFile :=
  let results := map detectFileType files in
  Array_sort (fun a b => PrimFloat.sub (confidence b) (confidence a)) results.

End Classifier.

(** ** The unified annotation record and the merge report *)

Module Annotation.

Record VideoInfo : Type := mkVideoInfo {
  filename : string;
  duration : float;
  width : float;
  height : float;
  frame_rate : float
}.

Record Metadata : Type := mkMetadata {
  created : string;
  version : string;
  pipelines : list string;
  source : string;
  processing_config : JsValue;
  processing_time : JsValue;
  total_duration : JsValue
}.

(** StandardAnnotationData. An optional key that was never assigned is
    [None]. *)
Record StandardAnnotationData : Type := mkData {
  video_info : VideoInfo;
  metadata : Metadata;
  person_tracking : option JSON;
  speech_recognition : option JSON;
  speaker_diarization : option JSON;
  scene_detection : option JSON;
  face_analysis : option JSON;
  audio_file : option File
}.

End Annotation.

Module Report.

Record ParseMetadata : Type := mkParseMetadata {
  filesProcessed : nat;
  pipelinesFound : list string;
  warnings : list string;
  processingTime : Z
}.

Record ParseResult : Type := mkParseResult {
  data : Annotation.StandardAnnotationData;
  metadata : ParseMetadata
}.

End Report.

Module Bundle.

(** What parseCompleteResults resolves to. *)
Record CompleteResults : Type := mkCompleteResults {
  personTracking : JSON;
  faceAnalysis : JSON;
  sceneDetection : JSON;
  config : JsValue;
  processingTime : JSON;
  totalDuration : JsValue
}.

End Bundle.

Module FilesSummary.

Record PipelineEntry : Type := mkEntry {
  name : string;
  file : string;
  confidence : float
}.

Record Summary : Type := mkSummary {
  video : option string;
  audio : option string;
  pipelines : list PipelineEntry;
  unknown : list string
}.

End FilesSummary.

(** ** What a merge does to the outside: the calls it makes, in order *)

Inductive Decoder : Type :=
  | CompleteResultsDecoder
  | COCODecoder
  | FaceDecoder
  | WebVTTDecoder
  | RTTMDecoder
  | SceneDecoder.

Inductive Event : Type :=
  (** [onProgress(stage, progress, total)] *)
  | Progress (stage : string) (progress total : nat)
  (** a call of a decoder on a file, and what it threw if it threw *)
  | Decode (d : Decoder) (f : File) (thrown : option Thrown)
  (** a call of extractVideoInfo *)
  | ExtractVideoInfo (f : File).

(** ** The local variables of mergeAnnotationData *)

Record MergeState : Type := mkState {
  warnings : list string;
  pipelinesFound : list string;
  videoFile : option File;
  audioFile : option File;
  personTracking : JSON;
  speechRecognition : JSON;
  speakerDiarization : JSON;
  sceneDetection : JSON;
  faceAnalysis : JSON;
  processingConfig : JsValue;
  processingTime : JsValue;
  totalDuration : JsValue;
  processedFiles : nat;
  events : list Event
}.

Definition initial_state : MergeState :=
  {| warnings := []; pipelinesFound := [];
     videoFile := None; audioFile := None;
     personTracking := JArr []; speechRecognition := JArr [];
     speakerDiarization := JArr []; sceneDetection := JArr [];
     faceAnalysis := JArr [];
     processingConfig := None; processingTime := None; totalDuration := None;
     processedFiles := 0; events := [] |}.

Definition set_videoFile (f : File) (st : MergeState) : MergeState :=
  mkState (warnings st) (pipelinesFound st) (Some f) (audioFile st)
    (personTracking st) (speechRecognition st) (speakerDiarization st)
    (sceneDetection st) (faceAnalysis st) (processingConfig st)
    (processingTime st) (totalDuration st) (processedFiles st) (events st).

Definition set_audioFile (f : File) (st : MergeState) : MergeState :=
  mkState (warnings st) (pipelinesFound st) (videoFile st) (Some f)
    (personTracking st) (speechRecognition st) (speakerDiarization st)
    (sceneDetection st) (faceAnalysis st) (processingConfig st)
    (processingTime st) (totalDuration st) (processedFiles st) (events st).

Definition set_personTracking (v : JSON) (st : MergeState) : MergeState :=
  mkState (warnings st) (pipelinesFound st) (videoFile st) (audioFile st)
    v (speechRecognition st) (speakerDiarization st)
    (sceneDetection st) (faceAnalysis st) (processingConfig st)
    (processingTime st) (totalDuration st) (processedFiles st) (events st).

Definition set_speechRecognition (v : JSON) (st : MergeState) : MergeState :=
  mkState (warnings st) (pipelinesFound st) (videoFile st) (audioFile st)
    (personTracking st) v (speakerDiarization st)
    (sceneDetection st) (faceAnalysis st) (processingConfig st)
    (processingTime st) (totalDuration st) (processedFiles st) (events st).

Definition set_speakerDiarization (v : JSON) (st : MergeState) : MergeState :=
  mkState (warnings st) (pipelinesFound st) (videoFile st) (audioFile st)
    (personTracking st) (speechRecognition st) v
    (sceneDetection st) (faceAnalysis st) (processingConfig st)
    (processingTime st) (totalDuration st) (processedFiles st) (events st).

Definition set_sceneDetection (v : JSON) (st : MergeState) : MergeState :=
  mkState (warnings st) (pipelinesFound st) (videoFile st) (audioFile st)
    (personTracking st) (speechRecognition st) (speakerDiarization st)
    v (faceAnalysis st) (processingConfig st)
    (processingTime st) (totalDuration st) (processedFiles st) (events st).

Definition set_faceAnalysis (v : JSON) (st : MergeState) : MergeState :=
  mkState (warnings st) (pipelinesFound st) (videoFile st) (audioFile st)
    (personTracking st) (speechRecognition st) (speakerDiarization st)
    (sceneDetection st) v (processingConfig st)
    (processingTime st) (totalDuration st) (processedFiles st) (events st).

Definition set_processingConfig (c : JsValue) (st : MergeState) : MergeState :=
  mkState (warnings st) (pipelinesFound st) (videoFile st) (audioFile st)
    (personTracking st) (speechRecognition st) (speakerDiarization st)
    (sceneDetection st) (faceAnalysis st) c
    (processingTime st) (totalDuration st) (processedFiles st) (events st).

Definition set_processingTime (t : JsValue) (st : MergeState) : MergeState :=
  mkState (warnings st) (pipelinesFound st) (videoFile st) (audioFile st)
    (personTracking st) (speechRecognition st) (speakerDiarization st)
    (sceneDetection st) (faceAnalysis st) (processingConfig st)
    t (totalDuration st) (processedFiles st) (events st).

Definition set_totalDuration (d : JsValue) (st : MergeState) : MergeState :=
  mkState (warnings st) (pipelinesFound st) (videoFile st) (audioFile st)
    (personTracking st) (speechRecognition st) (speakerDiarization st)
    (sceneDetection st) (faceAnalysis st) (processingConfig st)
    (processingTime st) d (processedFiles st) (events st).

(** [warnings.push(w)] *)
Definition warn (w : string) (st : MergeState) : MergeState :=
  mkState (warnings st ++ [w]) (pipelinesFound st) (videoFile st) (audioFile st)
    (personTracking st) (speechRecognition st) (speakerDiarization st)
    (sceneDetection st) (faceAnalysis st) (processingConfig st)
    (processingTime st) (totalDuration st) (processedFiles st) (events st).

(** [pipelinesFound.push(p)] *)
Definition found (p : string) (st : MergeState) : MergeState :=
  mkState (warnings st) (pipelinesFound st ++ [p]) (videoFile st) (audioFile st)
    (personTracking st) (speechRecognition st) (speakerDiarization st)
    (sceneDetection st) (faceAnalysis st) (processingConfig st)
    (processingTime st) (totalDuration st) (processedFiles st) (events st).

(** [processedFiles++] *)
Definition count_file (st : MergeState) : MergeState :=
  mkState (warnings st) (pipelinesFound st) (videoFile st) (audioFile st)
    (personTracking st) (speechRecognition st) (speakerDiarization st)
    (sceneDetection st) (faceAnalysis st) (processingConfig st)
    (processingTime st) (totalDuration st) (S (processedFiles st)) (events st).

Definition log (e : Event) (st : MergeState) : MergeState :=
  mkState (warnings st) (pipelinesFound st) (videoFile st) (audioFile st)
    (personTracking st) (speechRecognition st) (speakerDiarization st)
    (sceneDetection st) (faceAnalysis st) (processingConfig st)
    (processingTime st) (totalDuration st) (processedFiles st) (events st ++ [e]).

(** [onProgress?.(stage, progress, total)]; [cb] tells whether a callback was
    passed. The callback is taken to return normally. *)
Definition onProgress (cb : bool) (stage : string) (progress total : nat)
  (st : MergeState) : MergeState :=
  if cb then log (Progress stage progress total) st else st.

(** What a statement of a [try] block leaves: the state after it, or the
    state at the throw together with what was thrown. *)
Definition Outcome : Type := (MergeState * option Thrown)%type.

(** [first; rest]: [rest] runs when [first] has not thrown. *)
Definition next (first : Outcome) (rest : MergeState -> Outcome) : Outcome :=
  match first with
  | (st, None) => rest st
  | (st, Some error) => (st, Some error)
  end.

Notation "st <~ first ;; rest" := (next first (fun st => rest))
  (at level 61, first at next level, right associativity) : js_scope.

(** ** The complete-results extractor and the merge engine *)

Section Merge.
Context {B : Builtins} {C : Collaborators}.

(** [v.length > 0] on a value a slot can hold (never [null] or
    [undefined]). The length of an array or a string is a number; an object
    has the [length] it was given as a key, which the comparison converts to
    a number, and the conversion can throw; a number or a boolean has none
    ([undefined > 0] is false). *)
Definition length_gt0 (v : JSON) : Result bool :=
  match v with
  | JArr items => Ok (negb (length items =? 0)%nat)
  | JStr s => Ok (negb (String.length s =? 0)%nat)
  | JObj ps =>
      match JS.lookup "length" ps with
      | Some (JNum x) => Ok (PrimFloat.ltb 0 x)
      | Some w => x <- JS.converted (ToNumber w) ;; Ok (PrimFloat.ltb 0 x)
      | None => Ok false
      end
  | _ => Ok false
  end.

(** [v.length === 0]: no conversion, and so no throw. *)
Definition length_is0 (v : JSON) : bool :=
  match v with
  | JArr items => (length items =? 0)%nat
  | JStr s => (String.length s =? 0)%nat
  | JObj ps =>
      match JS.lookup "length" ps with
      | Some (JNum x) => PrimFloat.eqb x 0
      | _ => false
      end
  | _ => false
  end.

(** [v || d] *)
Definition or_default (v : JsValue) (d : JSON) : JSON :=
  match v with
  | Some j => if JS.truthy j then j else d
  | None => d
  end.

(** [data.pipeline_results.<section>?.results || []] *)
Definition section_results (section : string) (pipeline_results : JSON)
  : Result JSON :=
  s <- JS.get section pipeline_results ;;
  Ok (or_default (JS.get_opt "results" s) (JArr [])).

(** [(sum, result) => sum + (result?.processing_time || 0)] *)
Definition add_processing_time (sum result : JSON) : Result JSON :=
  JS.converted
    (js_plus sum
       (or_default (JS.get_opt "processing_time" (Some result)) (JNum 0))).

(** [values.reduce(callback, initial)] for a callback that can throw. *)
Fixpoint reduce (callback : JSON -> JSON -> Result JSON) (values : list JSON)
  (accumulator : JSON) : Result JSON :=
  match values with
  | [] => Ok accumulator
  | value :: rest =>
      accumulator <- callback accumulator value ;;
      reduce callback rest accumulator
  end.

Definition parseCompleteResults (f : File) : Result Bundle.CompleteResults :=
  let text := content f in
  data <- JSON_parse text ;;
  pipeline_results <- JS.get "pipeline_results" data ;;
  match pipeline_results with
  | None =>
      Throw (JS.type_error "cannot read property person of undefined")
  | Some pr =>
      personTracking <- section_results "person" pr ;;
      faceAnalysis <- section_results "face" pr ;;
      sceneDetection <- section_results "scene" pr ;;
      config <- JS.get "config" data ;;
      processingTime <- reduce add_processing_time (Object_values pr) (JNum 0) ;;
      total_duration <- JS.get "total_duration" data ;;
      Ok {| Bundle.personTracking := personTracking;
            Bundle.faceAnalysis := faceAnalysis;
            Bundle.sceneDetection := sceneDetection;
            Bundle.config := config;
            Bundle.processingTime := processingTime;
            Bundle.totalDuration := total_duration |}
  end.

Definition parseFaceAnalysis (f : File) : Result (list JSON) :=
  let text := content f in
  data <- JSON_parse text ;;
  match data with
  | JArr items => Ok items
  | _ =>
      annotations <- JS.get "annotations" data ;;
      match annotations with
      | Some (JArr items) => Ok items
      | _ =>
          results <- JS.get "results" data ;;
          match results with
          | Some (JArr items) => Ok items
          | _ => Ok []
          end
      end
  end.

(** extractVideoInfo: resolves with the metadata of the loaded video or
    rejects; the video element is taken to fire one of its two events. *)
Definition extractVideoInfo (videoFile : File) : Result Annotation.VideoInfo :=
  match load_video videoFile with
  | LoadedMetadata d w h =>
      Ok {| Annotation.filename := name videoFile;
            Annotation.duration := d;
            Annotation.width := w;
            Annotation.height := h;
            Annotation.frame_rate := 30 |}
  | LoadError => Throw (ErrorObject "Failed to load video metadata")
  end.

(** [detectedFiles.find(f => f.type === 'complete_results')]: a reference to
    the first such object, or [undefined]. *)
Definition find_complete_results (heap : Heap) (detectedFiles : list Address)
  : option Address :=
  find (fun f => FileType_eqb (type (heap f)) complete_results) detectedFiles.

(** [if (slot.length > 0) body] *)
Definition if_length_gt0 (slot : JSON) (body : MergeState -> MergeState)
  (st : MergeState) : Outcome :=
  match length_gt0 slot with
  | Ok true => (body st, None)
  | Ok false => (st, None)
  | Throw error => (st, Some error)
  end.

(** The [try] block of the first block, after the call of the callback. The
    variables assigned before a throw keep what they were assigned. *)
Definition complete_results_block (f : File) (st : MergeState) : Outcome :=
  match parseCompleteResults f with
  | Throw error => (log (Decode CompleteResultsDecoder f (Some error)) st, Some error)
  | Ok completeResults =>
      let st := log (Decode CompleteResultsDecoder f None) st in
      let st := set_personTracking (Bundle.personTracking completeResults) st in
      let st := set_faceAnalysis (Bundle.faceAnalysis completeResults) st in
      let st := set_sceneDetection (Bundle.sceneDetection completeResults) st in
      let st := set_processingConfig (Bundle.config completeResults) st in
      (* if (personTracking && personTracking.length > 0) console.log(...) *)
      st <~ (if JS.truthy (personTracking st)
             then if_length_gt0 (personTracking st) (fun st => st) st
             else (st, None)) ;;
      let st := set_processingTime (Some (Bundle.processingTime completeResults)) st in
      let st := set_totalDuration (Bundle.totalDuration completeResults) st in
      st <~ if_length_gt0 (personTracking st) (found "person_tracking") st ;;
      st <~ if_length_gt0 (faceAnalysis st) (found "face_analysis") st ;;
      st <~ if_length_gt0 (sceneDetection st) (found "scene_detection") st ;;
      (count_file st, None)
  end.

(** The first block: the complete-results file, when there is one. *)
Definition merge_complete_results (cb : bool) (totalFiles : nat)
  (completeResultsFile : DetectedFile) (st : MergeState) : MergeState :=
  let f := file completeResultsFile in
  let st := onProgress cb ("Processing " ++ name f) (processedFiles st) totalFiles st in
  let (st, thrown) := complete_results_block f st in
  match thrown with
  | Some error =>
      warn ("Failed to parse complete results " ++ name f ++ ": "
            ++ error_message error) st
  | None => st
  end.

(** [slot = await decode(file); pipelinesFound.push(label)]: the state after
    the two statements, or the state at the throw together with what was
    thrown. *)
Definition decode_into (d : Decoder) (decode : File -> Result (list JSON))
  (assign : JSON -> MergeState -> MergeState) (label : string)
  (f : File) (st : MergeState) : Outcome :=
  match decode f with
  | Ok records => (found label (assign (JArr records) (log (Decode d f None) st)), None)
  | Throw error => (log (Decode d f (Some error)) st, Some error)
  end.

(** The [switch] of the loop body. *)
Definition merge_switch (detectedFile : DetectedFile) (st : MergeState)
  : Outcome :=
  let f := file detectedFile in
  match type detectedFile with
  | video => (set_videoFile f st, None)
  | audio => (set_audioFile f st, None)
  | person_tracking =>
      if length_is0 (personTracking st)
      then decode_into COCODecoder parseCOCOPersonData set_personTracking
             "person_tracking" f st
      else (st, None)
  | face_analysis =>
      if length_is0 (faceAnalysis st)
      then decode_into FaceDecoder parseFaceAnalysis set_faceAnalysis
             "face_analysis" f st
      else (st, None)
  | speech_recognition =>
      decode_into WebVTTDecoder parseWebVTT set_speechRecognition
        "speech_recognition" f st
  | speaker_diarization =>
      decode_into RTTMDecoder parseRTTM set_speakerDiarization
        "speaker_diarization" f st
  | scene_detection =>
      if length_is0 (sceneDetection st)
      then decode_into SceneDecoder parseSceneDetection set_sceneDetection
             "scene_detection" f st
      else (st, None)
  | unknown =>
      (warn ("Could not determine type of file: " ++ name f) st, None)
  | complete_results => (st, None)
  end.

(** One iteration of the loop for an entry that is not the complete-results
    file: the [try] block, its [catch], and the count. *)
Definition merge_file (cb : bool) (totalFiles : nat) (detectedFile : DetectedFile)
  (st : MergeState) : MergeState :=
  let f := file detectedFile in
  let st := onProgress cb ("Processing " ++ name f) (processedFiles st) totalFiles st in
  let (st, thrown) := merge_switch detectedFile st in
  let st :=
    match thrown with
    | Some error =>
        warn ("Failed to parse " ++ name f ++ ": " ++ error_message error) st
    | None => st
    end in
  count_file st.

(** The loop over [detectedFiles]. An entry that is the object found before
    the loop is skipped, wherever and however often the array lists it. *)
Fixpoint merge_loop (heap : Heap) (cb : bool) (totalFiles : nat)
  (completeResultsFile : option Address) (l : list Address) (st : MergeState)
  : MergeState :=
  match l with
  | [] => st
  | detectedFile :: rest =>
      let st :=
        if same_object detectedFile completeResultsFile then st
        else merge_file cb totalFiles (heap detectedFile) st in
      merge_loop heap cb totalFiles completeResultsFile rest st
  end.

(** The state when the loop ends. *)
Definition merge_files (heap : Heap) (detectedFiles : list Address) (cb : bool)
  : MergeState :=
  let totalFiles := length detectedFiles in
  let completeResultsFile := find_complete_results heap detectedFiles in
  let st :=
    match completeResultsFile with
    | Some f => merge_complete_results cb totalFiles (heap f) initial_state
    | None => initial_state
    end in
  merge_loop heap cb totalFiles completeResultsFile detectedFiles st.

(** [if (slot.length > 0) data.key = slot]: the value of the key, if it is
    set. *)
Definition attach (slot : JSON) : Result (option JSON) :=
  test <- length_gt0 slot ;;
  Ok (if test then Some slot else None).

(** What follows the loop. The length tests are outside any [try]: a throw
    of one of them rejects the merge. *)
Definition merge_finish (cb : bool) (totalFiles : nat) (st : MergeState)
  : Result Report.ParseResult * list Event :=
  match videoFile st with
  | None => (Throw (ErrorObject "No video file provided"), events st)
  | Some vf =>
      let st := onProgress cb "Extracting video metadata" (processedFiles st)
                  (totalFiles + 1) st in
      let st := log (ExtractVideoInfo vf) st in
      match extractVideoInfo vf with
      | Throw error => (Throw error, events st)
      | Ok video_info =>
          let metadata :=
            {| Annotation.created := Date_toISOString;
               Annotation.version := "1.1.1";
               Annotation.pipelines := pipelinesFound st;
               Annotation.source := "videoannotator";
               Annotation.processing_config := processingConfig st;
               Annotation.processing_time := processingTime st;
               Annotation.total_duration := totalDuration st |} in
          let data :=
            person_tracking <- attach (personTracking st) ;;
            speech_recognition <- attach (speechRecognition st) ;;
            speaker_diarization <- attach (speakerDiarization st) ;;
            scene_detection <- attach (sceneDetection st) ;;
            face_analysis <- attach (faceAnalysis st) ;;
            Ok {| Annotation.video_info := video_info;
                  Annotation.metadata := metadata;
                  Annotation.person_tracking := person_tracking;
                  Annotation.speech_recognition := speech_recognition;
                  Annotation.speaker_diarization := speaker_diarization;
                  Annotation.scene_detection := scene_detection;
                  Annotation.face_analysis := face_analysis;
                  Annotation.audio_file := audioFile st |} in
          match data with
          | Throw error => (Throw error, events st)
          | Ok data =>
              let totalProcessingTime := (Date_now_end - Date_now_start)%Z in
              let st := onProgress cb "Merging complete" (totalFiles + 1)
                          (totalFiles + 1) st in
              (Ok {| Report.data := data;
                     Report.metadata :=
                       {| Report.filesProcessed := processedFiles st;
                          Report.pipelinesFound := pipelinesFound st;
                          Report.warnings := warnings st;
                          Report.processingTime := totalProcessingTime |} |},
               events st)
          end
      end
  end.

(** mergeAnnotationData: what the promise settles to, and the calls made
    until then. [detectedFiles] is the array of references it is passed and
    [heap] holds the objects they refer to. *)
Definition mergeAnnotationData (heap : Heap) (detectedFiles : list Address)
  (cb : bool) : Result Report.ParseResult * list Event :=
  merge_finish cb (length detectedFiles) (merge_files heap detectedFiles cb).

End Merge.

(** ** Summary view *)

Definition summary_push_pipeline (e : FilesSummary.PipelineEntry)
  (s : FilesSummary.Summary) : FilesSummary.Summary :=
  FilesSummary.mkSummary (FilesSummary.video s) (FilesSummary.audio s)
    (FilesSummary.pipelines s ++ [e]) (FilesSummary.unknown s).

(** [detected.pipeline || detected.type] *)
Definition pipeline_or_type (d : DetectedFile) : string :=
  match pipeline d with
  | Some p => if String.eqb p "" then type_name (type d) else p
  | None => type_name (type d)
  end.

Definition summary_step (s : FilesSummary.Summary) (d : DetectedFile)
  : FilesSummary.Summary :=
  match type d with
  | video =>
      FilesSummary.mkSummary (Some (name (file d))) (FilesSummary.audio s)
        (FilesSummary.pipelines s) (FilesSummary.unknown s)
  | audio =>
      FilesSummary.mkSummary (FilesSummary.video s) (Some (name (file d)))
        (FilesSummary.pipelines s) (FilesSummary.unknown s)
  | person_tracking | speech_recognition | speaker_diarization
  | scene_detection | face_analysis | complete_results =>
      summary_push_pipeline
        {| FilesSummary.name := pipeline_or_type d;
           FilesSummary.file := name (file d);
           FilesSummary.confidence := confidence d |} s
  | unknown =>
      FilesSummary.mkSummary (FilesSummary.video s) (FilesSummary.audio s)
        (FilesSummary.pipelines s) (FilesSummary.unknown s ++ [name (file d)])
  end.

Definition getFilesSummary (detectedFiles : list DetectedFile) : FilesSummary.Summary :=
  fold_left summary_step detectedFiles
    {| FilesSummary.video := None; FilesSummary.audio := None;
       FilesSummary.pipelines := []; FilesSummary.unknown := [] |}.

(** ** Validation view *)

Record FileSetValidation : Type := mkValidation {
  isValid : bool;
  missing : list string;
  suggestions : list string
}.

(** [types.has(t)] for the set [types] built from a list of types. *)
Definition Set_has (t : FileType) (types : list FileType) : bool :=
  existsb (FileType_eqb t) types.

Definition validateFileSet (detectedFiles : list DetectedFile) : FileSetValidation :=
  let types := map type detectedFiles in
  let missing := [] in
  let suggestions := [] in
  let (missing, suggestions) :=
    if negb (Set_has video types)
    then (missing ++ ["Video file"],
          suggestions ++ ["Add a video file (.mp4, .webm, .avi, .mov)"])
    else (missing, suggestions) in
  let hasPipelineData :=
    Set_has person_tracking types
    || Set_has speech_recognition types
    || Set_has speaker_diarization types
    || Set_has scene_detection types
    || Set_has face_analysis types
    || Set_has complete_results types in
  let (missing, suggestions) :=
    if negb hasPipelineData
    then (missing ++ ["Pipeline data"],
          suggestions ++ ["Add at least one annotation file (.json for tracking/scenes, .vtt for speech, .rttm for speakers)"])
    else (missing, suggestions) in
  {| isValid := (length missing =? 0)%nat;
     missing := missing;
     suggestions := suggestions |}.

(** ** The job wizard (pages/CreateNewJob)

    The component keeps its state in hooks; a handler reads the state of the
    render it was created in and sets the next one. It is embedded as a
    function from the state to the next state. *)

Module Wizard.

Definition STEPS : list (nat * string * string) :=
  [ (1, "Upload Videos", "Select video files to process");
    (2, "Select Pipelines", "Choose annotation pipelines");
    (3, "Configure", "Set pipeline parameters");
    (4, "Review & Submit", "Review and start jobs") ].

(** name, displayName, enabled *)
Definition AVAILABLE_PIPELINES : list (string * string * bool) :=
  [ ("scene_detection", "Scene Detection", true);
    ("person_tracking", "Person Tracking", true);
    ("face_analysis", "Face Analysis", true);
    ("audio_processing", "Audio Processing", true) ].

Section Component.
(** The type of the pipeline configuration, and the API client
    (api/client): [submitJob] resolves with the id of the job or throws, and
    [handleAPIError] turns what was thrown into a message and is taken to
    return normally. *)
Variable Config : Type.
Variable submitJob : File -> list string -> Config -> Result string.
Variable handleAPIError : Thrown -> string.

Record State : Type := mkState {
  currentStep : nat;
  selectedFiles : list File;
  selectedPipelines : list string;
  config : Config;
  isSubmitting : bool;
  submitError : option string;
  submitSuccess : list string
}.

Definition initial (DEFAULT_CONFIG : Config) : State :=
  {| currentStep := 1;
     selectedFiles := [];
     selectedPipelines :=
       map (fun p => fst (fst p))
         (filter (fun p => snd p) AVAILABLE_PIPELINES);
     config := DEFAULT_CONFIG;
     isSubmitting := false;
     submitError := None;
     submitSuccess := [] |}.

Definition setCurrentStep (n : nat) (st : State) : State :=
  mkState n (selectedFiles st) (selectedPipelines st) (config st)
    (isSubmitting st) (submitError st) (submitSuccess st).

Definition setSelectedFiles (l : list File) (st : State) : State :=
  mkState (currentStep st) l (selectedPipelines st) (config st)
    (isSubmitting st) (submitError st) (submitSuccess st).

Definition setSelectedPipelines (l : list string) (st : State) : State :=
  mkState (currentStep st) (selectedFiles st) l (config st)
    (isSubmitting st) (submitError st) (submitSuccess st).

Definition setIsSubmitting (b : bool) (st : State) : State :=
  mkState (currentStep st) (selectedFiles st) (selectedPipelines st) (config st)
    b (submitError st) (submitSuccess st).

Definition setSubmitError (e : option string) (st : State) : State :=
  mkState (currentStep st) (selectedFiles st) (selectedPipelines st) (config st)
    (isSubmitting st) e (submitSuccess st).

Definition setSubmitSuccess (l : list string) (st : State) : State :=
  mkState (currentStep st) (selectedFiles st) (selectedPipelines st) (config st)
    (isSubmitting st) (submitError st) l.

Definition nextStep (st : State) : State :=
  if (currentStep st <? length STEPS)%nat
  then setCurrentStep (currentStep st + 1) st
  else st.

Definition prevStep (st : State) : State :=
  if (1 <? currentStep st)%nat
  then setCurrentStep (currentStep st - 1) st
  else st.

Definition canProceed (st : State) : bool :=
  match currentStep st with
  | 1 => (0 <? length (selectedFiles st))%nat
  | 2 => (0 <? length (selectedPipelines st))%nat
  | 3 | 4 => true
  | _ => false
  end.

(** [setSelectedFiles([...selectedFiles, ...files])] *)
Definition handleFileChange (files : list File) (st : State) : State :=
  setSelectedFiles (selectedFiles st ++ files) st.

(** [l.filter((_, i) => i !== index)], from position [i] on. *)
Fixpoint filter_other_index {A : Type} (index i : nat) (l : list A) : list A :=
  match l with
  | [] => []
  | x :: rest =>
      if negb (i =? index)%nat then x :: filter_other_index index (S i) rest
      else filter_other_index index (S i) rest
  end.

Definition removeFile (index : nat) (st : State) : State :=
  setSelectedFiles (filter_other_index index 0 (selectedFiles st)) st.

Definition togglePipeline (pipelineName : string) (st : State) : State :=
  if Str.mem pipelineName (selectedPipelines st)
  then setSelectedPipelines
         (filter (fun p => negb (String.eqb p pipelineName)) (selectedPipelines st)) st
  else setSelectedPipelines (selectedPipelines st ++ [pipelineName]) st.

(** [l.join(sep)] *)
Fixpoint join (sep : string) (l : list string) : string :=
  match l with
  | [] => ""
  | [x] => x
  | x :: rest => (x ++ sep ++ join sep rest)%string
  end.

Definition newline : string := String (ascii_of_nat 10) EmptyString.

(** A number in a template string. *)
Definition number_text (n : nat) : string :=
  NilEmpty.string_of_uint (Nat.to_uint n).

(** The loop of handleSubmitJobs: the job ids and the error lines, each in
    the order of the files. *)
Fixpoint submit_each (files : list File) (pipelines : list string) (c : Config)
  (jobIds errors : list string) : list string * list string :=
  match files with
  | [] => (jobIds, errors)
  | f :: rest =>
      match submitJob f pipelines c with
      | Ok id => submit_each rest pipelines c (jobIds ++ [id]) errors
      | Throw error =>
          submit_each rest pipelines c jobIds
            (errors ++ [(name f ++ ": " ++ handleAPIError error)%string])
      end
  end.

(** handleSubmitJobs: the state when it has finished, and whether it has
    scheduled the navigation to the jobs list. *)
Definition handleSubmitJobs (st : State) : State * bool :=
  if (length (selectedFiles st) =? 0)%nat
  then (setSubmitError (Some "No videos selected") st, false)
  else
    let st := setIsSubmitting true st in
    let st := setSubmitError None st in
    let st := setSubmitSuccess [] st in
    let (jobIds, errors) :=
      submit_each (selectedFiles st) (selectedPipelines st) (config st) [] [] in
    let (st, navigate) :=
      if (0 <? length jobIds)%nat
      then (setSubmitSuccess jobIds st, (length errors =? 0)%nat)
      else (st, false) in
    let st :=
      if (0 <? length errors)%nat
      then setSubmitError
             (Some ("Failed to submit " ++ number_text (length errors)
                    ++ " job(s): " ++ newline ++ join newline errors)%string) st
      else st in
    (setIsSubmitting false st, navigate).

(** The job ids [submitJob] returns on the files, in order. *)
Definition submitted (st : State) : list string :=
  flat_map (fun f => match submitJob f (selectedPipelines st) (config st) with
                     | Ok id => [id]
                     | Throw _ => []
                     end) (selectedFiles st).

(** The files on which [submitJob] throws, in order. *)
Definition rejected (st : State) : list File :=
  filter (fun f => match submitJob f (selectedPipelines st) (config st) with
                   | Ok _ => false
                   | Throw _ => true
                   end) (selectedFiles st).

End Component.

(** A click on one of the two navigation buttons. *)
Inductive Click : Type :=
  | Next
  | Previous.

Definition click {Config : Type} (st : State Config) (c : Click) : State Config :=
  match c with
  | Next => nextStep st
  | Previous => prevStep st
  end.

End Wizard.

(** ** The properties as the specification words them *)

(** The name of the last entry of type [t], in input order. *)
Definition last_name_of (t : FileType) (l : list DetectedFile) : option string :=
  match rev (filter (fun d => FileType_eqb (type d) t) l) with
  | d :: _ => Some (name (file d))
  | [] => None
  end.

Definition bears_pipeline (d : DetectedFile) : bool :=
  match type d with
  | video | audio | unknown => false
  | _ => true
  end.

(** The name of a pipeline entry: the pipeline label of the classified
    file when it has one that is not the empty string, the name of its type
    otherwise. *)
Definition entry_name (d : DetectedFile) : string :=
  match pipeline d with
  | Some (String c label) => String c label
  | Some EmptyString => type_name (type d)
  | None => type_name (type d)
  end.

Definition summary_entry (d : DetectedFile) : FilesSummary.PipelineEntry :=
  {| FilesSummary.name := entry_name d;
     FilesSummary.file := name (file d);
     FilesSummary.confidence := confidence d |}.

(** The summary as the claim describes it. *)
Definition summary_spec (l : list DetectedFile) : FilesSummary.Summary :=
  {| FilesSummary.video := last_name_of video l;
     FilesSummary.audio := last_name_of audio l;
     FilesSummary.pipelines := map summary_entry (filter bears_pipeline l);
     FilesSummary.unknown :=
       map (fun d => name (file d))
         (filter (fun d => FileType_eqb (type d) unknown) l) |}.

(** The nine confidence values the classifier assigns, highest first. *)
Definition confidence_levels : list float :=
  [0.95; 0.9; 0.8; 0.7; 0.6; 0.5; 0.3; 0.2; 0.0]%float.

(** The position of a confidence value among the nine. *)
Fixpoint level_index (levels : list float) (c : float) : nat :=
  match levels with
  | [] => 0
  | x :: rest => if PrimFloat.eqb c x then 0 else S (level_index rest c)
  end.

Definition confidence_rank (d : DetectedFile) : nat :=
  level_index confidence_levels (confidence d).

(** Confidences do not increase from the first entry to the last. *)
Definition non_increasing (l : list DetectedFile) : Prop :=
  StronglySorted
    (fun a b => PrimFloat.leb (confidence b) (confidence a) = true) l.

(** The entries of confidence [c], in the order of the list. *)
Definition with_confidence (c : float) (l : list DetectedFile) : list DetectedFile :=
  filter (fun d => PrimFloat.eqb (confidence d) c) l.

(** [v.k] on a parsed value that is not [null]. *)
Definition field (k : string) (data : JSON) : JsValue :=
  match data with
  | JObj ps => JS.lookup k ps
  | _ => None
  end.

Definition present (k : string) (data : JSON) : bool :=
  match field k data with
  | Some _ => true
  | None => false
  end.

(** The complete-results shape as the specification words it: the four
    fields present and total_duration not undefined. *)
Definition complete_results_shape_claimed (data : JSON) : bool :=
  present "video_path" data && present "pipeline_results" data
  && present "config" data && present "start_time" data
  && present "total_duration" data.

(** The shape the sniffer accepts: the four fields hold truthy values (not
    null, false, 0 or the empty string) and total_duration is there. *)
Definition complete_results_shape (data : JSON) : bool :=
  JS.truthy_value (field "video_path" data)
  && JS.truthy_value (field "pipeline_results" data)
  && JS.truthy_value (field "config" data)
  && JS.truthy_value (field "start_time" data)
  && present "total_duration" data.

(** [v[0]] of a value that may be absent: the first element of an array, the
    first character of a string, the key 0 of an object. *)
Definition first_element (v : JsValue) : JsValue :=
  match v with
  | Some (JArr items) => hd_error items
  | Some (JStr (String c _)) => Some (JStr (String c EmptyString))
  | Some (JObj ps) => JS.lookup "0" ps
  | _ => None
  end.

(** [x] is an object that has every key of [keys]. *)
Definition object_with (keys : list string) (x : JsValue) : bool :=
  match x with
  | Some (JObj ps) =>
      forallb (fun k => match JS.lookup k ps with Some _ => true | None => false end) keys
  | _ => false
  end.

(** [x] is a truthy number, string or boolean: the [in] operator throws on
    it. *)
Definition truthy_primitive (x : JsValue) : bool :=
  match x with
  | Some (JObj _) | Some (JArr _) => false
  | Some j => JS.truthy j
  | None => false
  end.

(** [v] when it is truthy, [undefined] otherwise. *)
Definition when_truthy (v : JsValue) : JsValue :=
  if JS.truthy_value v then v else None.

(** The face-analysis shape as the specification words it. *)
Definition face_shape_claimed (data : JSON) : bool :=
  match data with
  | JArr items => object_with ["face_id"; "attributes"] (hd_error items)
  | JObj ps =>
      object_with ["face_id"] (first_element (JS.lookup "annotations" ps))
      || object_with ["face_id"] (first_element (JS.lookup "results" ps))
  | _ => false
  end.

(** The shape the sniffer accepts: an empty array matches, and a truthy
    primitive as annotations[0] ends the check before results is read. *)
Definition face_shape (data : JSON) : bool :=
  match data with
  | JArr [] => true
  | JArr (x :: _) => object_with ["face_id"; "attributes"] (Some x)
  | JObj ps =>
      let a0 := first_element (when_truthy (JS.lookup "annotations" ps)) in
      let r0 := first_element (when_truthy (JS.lookup "results" ps)) in
      object_with ["face_id"] a0
      || (negb (truthy_primitive a0) && object_with ["face_id"] r0)
  | _ => false
  end.

(** The objects an array of references lists, in the order of the array;
    an object listed twice is there twice. *)
Definition entries (heap : Heap) (detectedFiles : list Address)
  : list DetectedFile :=
  map heap detectedFiles.

(** What a caller that builds an array of new objects passes: a heap that
    holds the objects of a list at the addresses 0, 1, ..., and the array
    that lists each of them once, in order. *)
Definition store (objects : list DetectedFile) : Heap :=
  fun a =>
    nth a objects
      {| file := mkFile "" "" ""; type := unknown; pipeline := None;
         confidence := 0 |}.

Definition references (objects : list DetectedFile) : list Address :=
  seq 0 (length objects).

(** The first entry of type complete_results. *)
Definition first_complete_results (l : list DetectedFile) : option DetectedFile :=
  find (fun d => FileType_eqb (type d) complete_results) l.

Definition count_type (t : FileType) (l : list DetectedFile) : nat :=
  length (filter (fun d => FileType_eqb (type d) t) l).

Definition has_type (t : FileType) (l : list DetectedFile) : bool :=
  existsb (fun d => FileType_eqb (type d) t) l.

(** The last video-typed entry's file. *)
Definition last_video (l : list DetectedFile) : option File :=
  match rev (filter (fun d => FileType_eqb (type d) video) l) with
  | d :: _ => Some (file d)
  | [] => None
  end.

Definition is_progress (e : Event) : bool :=
  match e with
  | Progress _ _ _ => true
  | _ => false
  end.

(** How many times the progress callback was called. *)
Definition progress_calls (evs : list Event) : nat :=
  length (filter is_progress evs).

(** The warning the merge records when decoder [d] throws [e] on [f]. *)
Definition failure_warning (d : Decoder) (f : File) (e : Thrown) : string :=
  match d with
  | CompleteResultsDecoder =>
      "Failed to parse complete results " ++ name f ++ ": " ++ error_message e
  | _ => "Failed to parse " ++ name f ++ ": " ++ error_message e
  end.



Definition nonempty (records : list JSON) : bool :=
  negb (length records =? 0)%nat.



(** The calls of the callback for the entries of [l], the first of them
    when [done] files are counted. *)
Fixpoint ticks (total done : nat) (l : list DetectedFile) : list Event :=
  match l with
  | [] => []
  | d :: rest =>
      Progress ("Processing " ++ name (file d)) done total
      :: ticks total (S done) rest
  end.



(** ** Views of the merge used to state its properties *)

Section MergeViews.
Context {B : Builtins} {C : Collaborators}.

(** The address of the first object of type complete_results the array
    lists. *)
Definition first_address (heap : Heap) (l : list Address) : option Address :=
  find (fun f => FileType_eqb (type (heap f)) complete_results) l.

(** The entries the loop processes: those that are not that object, however
    often the array lists it. *)
Definition loop_entries (heap : Heap) (l : list Address) : list DetectedFile :=
  match first_address heap l with
  | Some completeResultsFile =>
      entries heap (filter (fun f => negb (f =? completeResultsFile)%nat) l)
  | None => entries heap l
  end.

(** The state the loop starts in. *)
Definition state_before_loop (l : list DetectedFile) (cb : bool) : MergeState :=
  match first_complete_results l with
  | Some completeResultsFile =>
      merge_complete_results cb (length l) completeResultsFile initial_state
  | None => initial_state
  end.

(** The loop over a list none of whose entries is skipped. *)
Definition merge_each (cb : bool) (totalFiles : nat) (l : list DetectedFile)
  (st : MergeState) : MergeState :=
  fold_left (fun st d => merge_file cb totalFiles d st) l st.

(** The slot the loop tests before it decodes an entry of type [q]; the
    types decoded without a test have none, which reads as an empty one. *)
Definition slot (q : FileType) (st : MergeState) : JSON :=
  match q with
  | person_tracking => personTracking st
  | face_analysis => faceAnalysis st
  | scene_detection => sceneDetection st
  | _ => JArr []
  end.

Definition tests_slot (q : FileType) : bool :=
  match q with
  | person_tracking | face_analysis | scene_detection => true
  | _ => false
  end.

Definition ok_of {A : Type} (r : Result A) : option A :=
  match r with
  | Ok a => Some a
  | Throw _ => None
  end.

(** The records an iteration decodes, when it decodes any. *)
Definition decoded (d : DetectedFile) (st : MergeState) : option (list JSON) :=
  match type d with
  | person_tracking =>
      if length_is0 (personTracking st)
      then ok_of (parseCOCOPersonData (file d)) else None
  | face_analysis =>
      if length_is0 (faceAnalysis st)
      then ok_of (parseFaceAnalysis (file d)) else None
  | scene_detection =>
      if length_is0 (sceneDetection st)
      then ok_of (parseSceneDetection (file d)) else None
  | speech_recognition => ok_of (parseWebVTT (file d))
  | speaker_diarization => ok_of (parseRTTM (file d))
  | _ => None
  end.



(** What parseCompleteResults extracts from the first complete_results
    entry, when there is one and it does not throw. *)
Definition bundle_of (l : list DetectedFile) : option Bundle.CompleteResults :=
  match first_complete_results l with
  | Some completeResultsFile =>
      ok_of (parseCompleteResults (file completeResultsFile))
  | None => None
  end.

(** What the first block leaves in the slot of type [q]. *)
Definition bundle_slot (q : FileType) (l : list DetectedFile) : JSON :=
  match bundle_of l, q with
  | Some completeResults, person_tracking => Bundle.personTracking completeResults
  | Some completeResults, face_analysis => Bundle.faceAnalysis completeResults
  | Some completeResults, scene_detection => Bundle.sceneDetection completeResults
  | _, _ => JArr []
  end.

(** What [v.length > 0] throws, if it throws. *)
Definition length_error (v : JSON) : option Thrown :=
  match length_gt0 v with
  | Ok _ => None
  | Throw error => Some error
  end.

(** [v.length > 0] holds. *)
Definition passes (v : JSON) : bool :=
  match length_gt0 v with
  | Ok test => test
  | Throw _ => false
  end.

(** What the length tests that follow the loop throw on the results of a
    bundle: they test person_tracking, then scene_detection, then
    face_analysis. *)
Definition bundle_length_error (l : list DetectedFile) : option Thrown :=
  match length_error (bundle_slot person_tracking l) with
  | Some error => Some error
  | None =>
      match length_error (bundle_slot scene_detection l) with
      | Some error => Some error
      | None => length_error (bundle_slot face_analysis l)
      end
  end.


(** What the length tests that follow the loop throw on the state the loop
    ends in: the first throw, in the order of the tests. *)
Definition finish_error (st : MergeState) : option Thrown :=
  match length_error (personTracking st) with
  | Some error => Some error
  | None =>
      match length_error (speechRecognition st) with
      | Some error => Some error
      | None =>
          match length_error (speakerDiarization st) with
          | Some error => Some error
          | None =>
              match length_error (sceneDetection st) with
              | Some error => Some error
              | None => length_error (faceAnalysis st)
              end
          end
      end
  end.

(** [if (slot.length > 0) data.key = slot], for a test that does not
    throw. *)
Definition attached (slot : JSON) : option JSON :=
  if passes slot then Some slot else None.

(** The state the loop starts in when no length test of the first block
    throws. *)
Definition quiet_state (l : list DetectedFile) (cb : bool) : MergeState :=
  match first_complete_results l with
  | None => initial_state
  | Some completeResultsFile =>
      let f := file completeResultsFile in
      let tick :=
        if cb then [Progress ("Processing " ++ name f) 0 (length l)] else [] in
      match parseCompleteResults f with
      | Throw error =>
          {| warnings := [failure_warning CompleteResultsDecoder f error];
             pipelinesFound := [];
             videoFile := None; audioFile := None;
             personTracking := JArr []; speechRecognition := JArr [];
             speakerDiarization := JArr []; sceneDetection := JArr [];
             faceAnalysis := JArr [];
             processingConfig := None; processingTime := None;
             totalDuration := None;
             processedFiles := 0;
             events := tick ++ [Decode CompleteResultsDecoder f (Some error)] |}
      | Ok completeResults =>
          {| warnings := [];
             pipelinesFound :=
               (if passes (Bundle.personTracking completeResults)
                then ["person_tracking"] else [])
               ++ (if passes (Bundle.faceAnalysis completeResults)
                   then ["face_analysis"] else [])
               ++ (if passes (Bundle.sceneDetection completeResults)
                   then ["scene_detection"] else []);
             videoFile := None; audioFile := None;
             personTracking := Bundle.personTracking completeResults;
             speechRecognition := JArr [];
             speakerDiarization := JArr [];
             sceneDetection := Bundle.sceneDetection completeResults;
             faceAnalysis := Bundle.faceAnalysis completeResults;
             processingConfig := Bundle.config completeResults;
             processingTime := Some (Bundle.processingTime completeResults);
             totalDuration := Bundle.totalDuration completeResults;
             processedFiles := 1;
             events := tick ++ [Decode CompleteResultsDecoder f None] |}
      end
  end.


(** The array lists the object found before the loop once. *)
Definition listed_once (heap : Heap) (detectedFiles : list Address) : Prop :=
  match first_address heap detectedFiles with
  | Some completeResultsFile =>
      count_occ Nat.eq_dec detectedFiles completeResultsFile = 1
  | None => True
  end.


End MergeViews.

(** ** Further views of the classifier and of the merge *)

(** The test detectFileType makes for a video: the extension or the MIME
    type. It reads the name and the type of the file, not its content. *)
Definition video_by_name (f : File) : bool :=
  Str.mem (Str.last_segment "" (Str.toLowerCase (name f))) ["mp4"; "webm"; "avi"; "mov"]
  || Str.startsWith "video/" (Str.toLowerCase (mime f)).

(** The test detectFileType makes for an audio file. *)
Definition audio_by_name (f : File) : bool :=
  Str.mem (Str.last_segment "" (Str.toLowerCase (name f))) ["wav"; "mp3"; "aac"; "ogg"]
  || Str.startsWith "audio/" (Str.toLowerCase (mime f)).

(** The same file with another content. *)
Definition with_content (f : File) (text : string) : File :=
  {| name := name f; mime := mime f; content := text |}.

Definition is_unknown (d : DetectedFile) : bool := FileType_eqb (type d) unknown.




(** No call reports more done than there is to do. *)
Definition bounded (evs : list Event) : Prop :=
  forall stage p t, In (Progress stage p t) evs -> p <= t.

(** The slot a pipeline type is accumulated in. *)
Definition payload (q : FileType) (st : MergeState) : JSON :=
  match q with
  | person_tracking => personTracking st
  | speech_recognition => speechRecognition st
  | speaker_diarization => speakerDiarization st
  | scene_detection => sceneDetection st
  | face_analysis => faceAnalysis st
  | _ => JArr []
  end.

Section PayloadViews.
Context {B : Builtins}.

(** Every slot that passes the length test has its pipeline recorded. *)
Definition payloads_found (st : MergeState) : Prop :=
  forall q, length_gt0 (payload q st) = Ok true ->
            In (type_name q) (pipelinesFound st).

End PayloadViews.

(** The key of the record a pipeline type is attached under. *)
Definition record_key (q : FileType) (data : Annotation.StandardAnnotationData)
  : option JSON :=
  match q with
  | person_tracking => Annotation.person_tracking data
  | speech_recognition => Annotation.speech_recognition data
  | speaker_diarization => Annotation.speaker_diarization data
  | scene_detection => Annotation.scene_detection data
  | face_analysis => Annotation.face_analysis data
  | _ => None
  end.

(** [v] is an array. *)
Definition array_value (v : JsValue) : bool :=
  match v with
  | Some (JArr _) => true
  | _ => false
  end.

(** The shape isValidCOCOPersonData accepts. *)
Definition coco_shape (data : JSON) : bool :=
  match data with
  | JArr [] => true
  | JArr (x :: _) => object_with ["keypoints"; "bbox"] (Some x)
  | JObj ps =>
      array_value (JS.lookup "annotations" ps)
      || array_value (JS.lookup "results" ps)
  | _ => false
  end.

(** [x] is an object that has one of the keys. *)
Definition object_with_any (keys : list string) (x : JsValue) : bool :=
  match x with
  | Some (JObj ps) =>
      existsb (fun k => match JS.lookup k ps with Some _ => true | None => false end) keys
  | _ => false
  end.

(** The shape isValidSceneDetection accepts. *)
Definition scene_shape (data : JSON) : bool :=
  match data with
  | JArr [] => true
  | JArr (x :: _) => object_with_any ["start_time"; "startTime"] (Some x)
  | JObj ps =>
      array_value (JS.lookup "results" ps)
      || array_value (JS.lookup "scenes" ps)
      || object_with ["scene_type"]
           (first_element (when_truthy (JS.lookup "annotations" ps)))
  | _ => false
  end.

(** ** A concrete environment and concrete files, for worked examples *)

Module Sample.

(** The double quote. *)
Definition dq : string := String (ascii_of_nat 34) EmptyString.

(** A JSON string literal. *)
Definition str (s : string) : string := dq ++ s ++ dq.

(** A key of a JSON object, with its colon. *)
Definition key (k : string) : string := dq ++ k ++ dq ++ ":".

(** A bundle whose start_time is the number 0. *)
Definition bundle_epoch_text : string :=
  "{" ++ key "video_path" ++ str "clip.mp4" ++ ","
      ++ key "pipeline_results" ++ "{},"
      ++ key "config" ++ "{},"
      ++ key "start_time" ++ "0,"
      ++ key "total_duration" ++ "120}".

Definition bundle_epoch_value : JSON :=
  JObj [("video_path", JStr "clip.mp4"); ("pipeline_results", JObj []);
        ("config", JObj []); ("start_time", JNum 0); ("total_duration", JNum 120)].

(** A bundle that embeds no pipeline. *)
Definition bundle_empty_text : string :=
  "{" ++ key "video_path" ++ str "clip.mp4" ++ ","
      ++ key "pipeline_results" ++ "{},"
      ++ key "config" ++ "{},"
      ++ key "start_time" ++ "1,"
      ++ key "total_duration" ++ "120}".

Definition bundle_empty_value : JSON :=
  JObj [("video_path", JStr "clip.mp4"); ("pipeline_results", JObj []);
        ("config", JObj []); ("start_time", JNum 1); ("total_duration", JNum 120)].

(** A bundle that embeds one person-tracking record. *)
Definition bundle_person_text : string :=
  "{" ++ key "video_path" ++ str "clip.mp4" ++ ","
      ++ key "pipeline_results" ++ "{" ++ key "person" ++ "{"
           ++ key "results" ++ "[{" ++ key "track_id" ++ "7}]}},"
      ++ key "config" ++ "{},"
      ++ key "start_time" ++ "1,"
      ++ key "total_duration" ++ "120}".

Definition bundle_person_value : JSON :=
  JObj [("video_path", JStr "clip.mp4");
        ("pipeline_results",
          JObj [("person", JObj [("results", JArr [JObj [("track_id", JNum 7)]])])]);
        ("config", JObj []); ("start_time", JNum 1); ("total_duration", JNum 120)].

(** One person-tracking record in an array. *)
Definition persons_text : string := "[{" ++ key "track_id" ++ "3}]".
Definition persons_value : JSON := JArr [JObj [("track_id", JNum 3)]].

(** One face record in an array. *)
Definition faces_text : string :=
  "[{" ++ key "face_id" ++ "1," ++ key "attributes" ++ "{}}]".
Definition faces_value : JSON :=
  JArr [JObj [("face_id", JNum 1); ("attributes", JObj [])]].

(** [JSON.parse] on the texts of this module. Any other text is refused;
    the one such text the examples parse is a lone opening brace, which
    [JSON.parse] refuses too. *)
Definition parse_table : list (string * JSON) :=
  [ ("[]", JArr []);
    (bundle_epoch_text, bundle_epoch_value);
    (bundle_empty_text, bundle_empty_value);
    (bundle_person_text, bundle_person_value);
    (persons_text, persons_value);
    (faces_text, faces_value) ].

Definition parse (text : string) : Result JSON :=
  match JS.lookup text parse_table with
  | Some v => Ok v
  | None => Throw (ErrorObject "SyntaxError: Unexpected token")
  end.

(** The conversion of an object to a primitive calls its [valueOf] and its
    [toString]. An object from [JSON.parse] inherits both; the inherited
    [valueOf] returns the object, so the conversion rests on [toString], and
    it throws when the object has a [toString] key of its own, whose value
    is not callable. *)
Definition unconvertible (v : JSON) : bool :=
  match v with
  | JObj ps =>
      match JS.lookup "toString" ps with
      | Some _ => true
      | None => false
      end
  | _ => false
  end.

(** The builtins on the values the examples reach: the values of an object
    with no numeric key in insertion order, the sum of two numbers, a number
    as itself, and the TypeError of the conversion of an object that has a
    [toString] key. Elsewhere the functions are placeholders. *)
#[local] Instance builtins : Builtins :=
  {| JSON_parse := parse;
     Object_values := fun v =>
       match v with
       | JObj ps => map snd ps
       | JArr items => items
       | _ => []
       end;
     js_plus := fun a b =>
       if unconvertible b then None
       else match a, b with
            | JNum x, JNum y => Some (JNum (PrimFloat.add x y))
            | _, _ => Some a
            end;
     ToNumber := fun v =>
       if unconvertible v then None
       else match v with
            | JNum x => Some x
            | _ => Some PrimFloat.nan
            end |}.

(** A decoder that reads the array the file holds. *)
Definition read_array (f : File) : Result (list JSON) :=
  match parse (content f) with
  | Ok (JArr items) => Ok items
  | Ok _ => Ok []
  | Throw e => Throw e
  end.

(** A WebVTT decoder that reads one cue from a file that starts with the
    WEBVTT token and throws on any other. *)
Definition read_cues (f : File) : Result (list JSON) :=
  if Str.startsWith "WEBVTT" (content f)
  then Ok [JObj [("text", JStr "hello")]]
  else Throw (ErrorObject "Invalid WebVTT file").

(** Collaborators for the examples: a video loads unless the file is
    empty. *)
#[local] Instance collaborators : Collaborators :=
  {| parseWebVTT := read_cues;
     parseRTTM := read_array;
     parseCOCOPersonData := read_array;
     parseSceneDetection := read_array;
     load_video := fun f =>
       if String.eqb (content f) "" then LoadError
       else LoadedMetadata 120 640 480;
     Date_now_start := 1000;
     Date_now_end := 1250;
     Date_toISOString := "2024-01-01T00:00:00.000Z" |}.

Definition clip_mp4 : File := mkFile "clip.mp4" "video/mp4" "(video data)".
Definition empty_mp4 : File := mkFile "empty.mp4" "video/mp4" "".
Definition clip_vtt : File := mkFile "clip.vtt" "text/vtt" "WEBVTT".
Definition empty_json : File := mkFile "data.json" "application/json" "[]".
Definition faces_json : File := mkFile "faces.json" "application/json" faces_text.
Definition bundle_epoch_json : File :=
  mkFile "complete_results.json" "application/json" bundle_epoch_text.
Definition bundle_empty_json : File :=
  mkFile "complete_results.json" "application/json" bundle_empty_text.
Definition bundle_person_json : File :=
  mkFile "complete_results.json" "application/json" bundle_person_text.


Definition as_type (t : FileType) (c : float) (f : File) : DetectedFile :=
  {| file := f; type := t; pipeline := Some (type_name t); confidence := c |}.

Definition as_video (f : File) : DetectedFile :=
  {| file := f; type := video; pipeline := None; confidence := 0.95 |}.



(** A video and one WebVTT file. *)
Definition clip_and_transcript (transcript : File) : list DetectedFile :=
  [ as_video clip_mp4;
    as_type speech_recognition 0.9 transcript ].


End Sample.

(** Further files for the worked examples. *)
Module MoreSamples.

(** An object in the results layout of a scene file. *)
Definition scenes_text : string := "{" ++ Sample.key "results" ++ "[]}".
Definition scenes_value : JSON := JObj [("results", JArr [])].

(** A bundle whose person-tracking results are an object with a length
    that cannot be converted to a number. *)
Definition bundle_untestable_text : string :=
  "{" ++ Sample.key "video_path" ++ Sample.str "clip.mp4" ++ ","
      ++ Sample.key "pipeline_results" ++ "{" ++ Sample.key "person" ++ "{"
           ++ Sample.key "results" ++ "{" ++ Sample.key "length" ++ "{"
           ++ Sample.key "toString" ++ "1}}}},"
      ++ Sample.key "config" ++ "{},"
      ++ Sample.key "start_time" ++ "1,"
      ++ Sample.key "total_duration" ++ "120}".

Definition bundle_untestable_value : JSON :=
  JObj [("video_path", JStr "clip.mp4");
        ("pipeline_results",
          JObj [("person",
                  JObj [("results",
                          JObj [("length", JObj [("toString", JNum 1)])])])]);
        ("config", JObj []); ("start_time", JNum 1); ("total_duration", JNum 120)].

(** A bundle whose person section has a processing time that cannot be
    converted to a primitive. *)
Definition bundle_unsummable_text : string :=
  "{" ++ Sample.key "video_path" ++ Sample.str "clip.mp4" ++ ","
      ++ Sample.key "pipeline_results" ++ "{" ++ Sample.key "person" ++ "{"
           ++ Sample.key "processing_time" ++ "{"
           ++ Sample.key "toString" ++ "1}}},"
      ++ Sample.key "config" ++ "{},"
      ++ Sample.key "start_time" ++ "1,"
      ++ Sample.key "total_duration" ++ "120}".

Definition bundle_unsummable_value : JSON :=
  JObj [("video_path", JStr "clip.mp4");
        ("pipeline_results",
          JObj [("person", JObj [("processing_time", JObj [("toString", JNum 1)])])]);
        ("config", JObj []); ("start_time", JNum 1); ("total_duration", JNum 120)].

(** [JSON.parse] on the texts above and on the texts of [Sample]. *)
Definition parse (text : string) : Result JSON :=
  if String.eqb text scenes_text then Ok scenes_value
  else if String.eqb text bundle_untestable_text then Ok bundle_untestable_value
  else if String.eqb text bundle_unsummable_text then Ok bundle_unsummable_value
  else Sample.parse text.

#[local] Instance builtins : Builtins :=
  {| JSON_parse := parse;
     Object_values := @Object_values Sample.builtins;
     js_plus := @js_plus Sample.builtins;
     ToNumber := @ToNumber Sample.builtins |}.

Definition bundle_untestable_json : File :=
  mkFile "complete_results.json" "application/json" bundle_untestable_text.
Definition bundle_unsummable_json : File :=
  mkFile "complete_results.json" "application/json" bundle_unsummable_text.

(** An untestable bundle and a video. *)
Definition untestable_input : list DetectedFile :=
  [ Sample.as_type complete_results 0.95 bundle_untestable_json;
    Sample.as_video Sample.clip_mp4 ].


(** A bundle and a WebVTT file. *)
Definition bundle_and_transcript : list DetectedFile :=
  [ Sample.as_type complete_results 0.95 Sample.bundle_empty_json;
    Sample.as_type speech_recognition 0.9 Sample.clip_vtt ].




Definition scenes_json : File :=
  mkFile "scenes.json" "application/json" scenes_text.
Definition renamed_mp4 : File := mkFile "clip.MP4" "" "WEBVTT".






(** A wizard on its first step with two files selected; the API accepts
    every file but the empty one. *)
Definition submit (f : File) (pipelines : list string) (c : unit) : Result string :=
  if String.eqb (content f) "" then Throw (ErrorObject "empty upload")
  else Ok ("job-" ++ name f)%string.

Definition wizard : Wizard.State unit :=
  Wizard.handleFileChange [Sample.clip_mp4; Sample.empty_mp4] (Wizard.initial tt).

End MoreSamples.

(** * Properties *)

(** ** The summary view *)

Lemma last_name_of_snoc (t : FileType) (l : list DetectedFile) (d : DetectedFile) :
  last_name_of t (l ++ [d]) =
  if FileType_eqb (type d) t then Some (name (file d)) else last_name_of t l.
Proof.
  unfold last_name_of. rewrite filter_app, rev_app_distr. simpl.
  destruct (FileType_eqb (type d) t); reflexivity.
Qed.

Lemma getFilesSummary_snoc (l : list DetectedFile) (d : DetectedFile) :
  getFilesSummary (l ++ [d]) = summary_step (getFilesSummary l) d.
Proof. unfold getFilesSummary. now rewrite fold_left_app. Qed.

Lemma pipeline_or_type_name (d : DetectedFile) : pipeline_or_type d = entry_name d.
Proof.
  unfold pipeline_or_type, entry_name.
  destruct (pipeline d) as [[| c label] |]; reflexivity.
Qed.

(** C10. getFilesSummary returns the name of the last video-typed entry and
    of the last audio-typed entry (nothing when there is none), one
    {name, file, confidence} entry per pipeline-bearing entry, complete_results
    included, in input order, and the names of the unknown-typed entries in
    input order. The name of a pipeline entry is the pipeline label of the
    classified file, or the name of its type when it has no label or an
    empty one; its file is the name of the file and its confidence the one
    of the classification. *)
Theorem getFilesSummary_spec (detectedFiles : list DetectedFile) :
  getFilesSummary detectedFiles = summary_spec detectedFiles.
Proof.
  induction detectedFiles as [| d l IH] using rev_ind.
  - reflexivity.
  - rewrite getFilesSummary_snoc, IH. unfold summary_spec, summary_step.
    rewrite !last_name_of_snoc, !filter_app, !map_app. simpl.
    unfold bears_pipeline, summary_push_pipeline, summary_entry.
    rewrite pipeline_or_type_name.
    destruct (type d); simpl; rewrite ?app_nil_r; reflexivity.
Qed.

(** ** Batch classification *)

(** Array_sort for a comparator that orders by a rank on the elements it is
    run on: [compare x y > 0] exactly when [x] ranks behind [y]. *)
Section StableSort.
Variables (A : Type) (compare : A -> A -> float) (rank : A -> nat).
Variable good : A -> Prop.
Hypothesis compare_rank : forall x y, good x -> good y ->
  PrimFloat.ltb 0 (compare x y) = (rank y <? rank x)%nat.

Lemma sort_insert_perm (x : A) (l : list A) :
  Permutation (sort_insert compare x l) (x :: l).
Proof.
  induction l as [| y l IH]; simpl.
  - apply Permutation_refl.
  - destruct (PrimFloat.ltb 0 (compare x y)).
    + eapply Permutation_trans; [apply perm_skip, IH | apply perm_swap].
    + apply Permutation_refl.
Qed.

Lemma Array_sort_perm (l : list A) : Permutation (Array_sort compare l) l.
Proof.
  induction l as [| x l IH]; simpl.
  - apply perm_nil.
  - eapply Permutation_trans; [apply sort_insert_perm | now apply perm_skip].
Qed.

Lemma Array_sort_good (l : list A) : Forall good l -> Forall good (Array_sort compare l).
Proof.
  intro H. eapply Permutation_Forall; [| exact H].
  apply Permutation_sym, Array_sort_perm.
Qed.

Lemma sort_insert_sorted (x : A) (l : list A) :
  good x -> Forall good l ->
  StronglySorted (fun a b => rank a <= rank b) l ->
  StronglySorted (fun a b => rank a <= rank b) (sort_insert compare x l).
Proof.
  intros Gx Gl Hs. induction Hs as [| y l Hs IH Hy]; simpl.
  - constructor; [constructor | constructor].
  - inversion Gl as [| ? ? Gy Gl']; subst.
    rewrite (compare_rank Gx Gy).
    destruct (Nat.ltb_spec (rank y) (rank x)) as [Hlt | Hge].
    + constructor; [now apply IH |].
      eapply Permutation_Forall; [apply Permutation_sym, sort_insert_perm |].
      constructor; [lia | exact Hy].
    + constructor; [now constructor |].
      constructor; [exact Hge |].
      eapply Forall_impl; [| exact Hy]. simpl. intros; lia.
Qed.

Lemma Array_sort_sorted (l : list A) :
  Forall good l ->
  StronglySorted (fun a b => rank a <= rank b) (Array_sort compare l).
Proof.
  induction l as [| x l IH]; simpl; intro G.
  - constructor.
  - inversion G; subst.
    apply sort_insert_sorted; auto using Array_sort_good.
Qed.

Lemma sort_insert_stable (k : nat) (x : A) (l : list A) :
  good x -> Forall good l ->
  filter (fun a => rank a =? k)%nat (sort_insert compare x l)
  = filter (fun a => rank a =? k)%nat (x :: l).
Proof.
  intros Gx Gl. induction Gl as [| y l Gy Gl IH]; [reflexivity |].
  cbn [sort_insert]. rewrite (compare_rank Gx Gy).
  destruct (Nat.ltb_spec (rank y) (rank x)) as [Hlt | Hge]; [| reflexivity].
  cbn [filter] in *. rewrite IH.
  destruct (Nat.eqb_spec (rank x) k), (Nat.eqb_spec (rank y) k);
    try reflexivity; lia.
Qed.

Lemma Array_sort_stable (k : nat) (l : list A) :
  Forall good l ->
  filter (fun a => rank a =? k)%nat (Array_sort compare l)
  = filter (fun a => rank a =? k)%nat l.
Proof.
  induction l as [| x l IH]; intro G; [reflexivity |].
  inversion G; subst. simpl Array_sort.
  rewrite sort_insert_stable by auto using Array_sort_good.
  simpl. now rewrite IH.
Qed.

End StableSort.

Lemma StronglySorted_weaken (A : Type) (R1 R2 : A -> A -> Prop) (P : A -> Prop)
  (l : list A) :
  (forall a b, P a -> P b -> R1 a b -> R2 a b) ->
  Forall P l -> StronglySorted R1 l -> StronglySorted R2 l.
Proof.
  intros HR HP Hs. induction Hs as [| x l Hs IH Hx]; [constructor |].
  inversion HP as [| ? ? Px Pl]; subst.
  constructor; [now apply IH |].
  rewrite Forall_forall in *. intros b Hb. apply HR; auto.
Qed.

Lemma filter_ext_Forall (A : Type) (f g : A -> bool) (P : A -> Prop) (l : list A) :
  (forall a, P a -> f a = g a) -> Forall P l -> filter f l = filter g l.
Proof.
  intros Hfg HP. induction HP as [| x l Px Pl IH]; [reflexivity |].
  simpl. now rewrite (Hfg x Px), IH.
Qed.

(** Splits a membership in [confidence_levels] into its nine cases. *)
Ltac each_level H :=
  unfold confidence_levels in H; simpl in H;
  repeat (destruct H as [H | H]; [subst |]); [.. | contradiction].

Lemma level_compare (c1 c2 : float) :
  In c1 confidence_levels -> In c2 confidence_levels ->
  PrimFloat.ltb 0 (PrimFloat.sub c2 c1)
  = (level_index confidence_levels c2 <? level_index confidence_levels c1)%nat.
Proof.
  intros H1 H2. each_level H1; each_level H2; vm_compute; reflexivity.
Qed.

Lemma level_leb (c1 c2 : float) :
  In c1 confidence_levels -> In c2 confidence_levels ->
  level_index confidence_levels c1 <= level_index confidence_levels c2 ->
  PrimFloat.leb c2 c1 = true.
Proof.
  intros H1 H2. each_level H1; each_level H2; vm_compute; intro H;
    first [reflexivity | exfalso; lia].
Qed.

Lemma level_eqb (c1 c2 : float) :
  In c1 confidence_levels -> In c2 confidence_levels ->
  PrimFloat.eqb c1 c2
  = (level_index confidence_levels c1 =? level_index confidence_levels c2)%nat.
Proof.
  intros H1 H2. each_level H1; each_level H2; vm_compute; reflexivity.
Qed.

Section ClassifierFacts.
Context {B : Builtins}.

Lemma detectJSONType_level (f : File) :
  In (confidence (detectJSONType f)) confidence_levels.
Proof.
  unfold detectJSONType.
  repeat match goal with
         | |- context [if ?b then _ else _] => destruct b
         | |- context [match JSON_parse ?t with _ => _ end] => destruct (JSON_parse t)
         end;
    simpl; repeat (first [left; reflexivity | right]).
Qed.

Lemma detectFileType_level (f : File) :
  In (confidence (detectFileType f)) confidence_levels.
Proof.
  unfold detectFileType.
  repeat match goal with
         | |- context [if ?b then _ else _] => destruct b
         end;
    try apply detectJSONType_level;
    simpl; repeat (first [left; reflexivity | right]).
Qed.

(** C8. batchDetectFileTypes returns a permutation of the classification
    results of its input, with confidences that do not increase from first to
    last, and with the entries of each confidence value in their original
    relative order. *)
Theorem batchDetectFileTypes_sorted (files : list File) :
  Permutation (batchDetectFileTypes files) (map detectFileType files)
  /\ non_increasing (batchDetectFileTypes files)
  /\ Forall (fun c =>
       with_confidence c (batchDetectFileTypes files)
       = with_confidence c (map detectFileType files)) confidence_levels.
Proof.
  set (good := fun d : DetectedFile => In (confidence d) confidence_levels).
  assert (Hgood : Forall good (map detectFileType files)).
  { apply Forall_forall. intros d Hd. apply in_map_iff in Hd.
    destruct Hd as [f [<- _]]. apply detectFileType_level. }
  assert (Hcmp : forall x y, good x -> good y ->
            PrimFloat.ltb 0 (PrimFloat.sub (confidence y) (confidence x))
            = (confidence_rank y <? confidence_rank x)%nat).
  { intros x y Hx Hy. now apply level_compare. }
  unfold batchDetectFileTypes. split; [| split].
  - apply Array_sort_perm.
  - unfold non_increasing.
    apply StronglySorted_weaken
      with (R1 := fun a b => confidence_rank a <= confidence_rank b) (P := good).
    + intros a b Ha Hb. now apply level_leb.
    + now apply Array_sort_good.
    + now apply Array_sort_sorted with (good := good).
  - apply Forall_forall. intros c Hc. unfold with_confidence.
    rewrite (@filter_ext_Forall _ _
               (fun d => confidence_rank d =? level_index confidence_levels c)%nat good).
    + rewrite Array_sort_stable with (good := good) by assumption.
      symmetry. apply filter_ext_Forall with (P := good); [| assumption].
      intros d Hd. now apply level_eqb.
    + intros d Hd. now apply level_eqb.
    + now apply Array_sort_good.
Qed.

End ClassifierFacts.

(** ** Content sniffers and JSON sub-classification *)

Section SnifferFacts.
Context {B : Builtins}.

Lemma isValidCompleteResults_shape (f : File) :
  isValidCompleteResults f =
  match JSON_parse (content f) with
  | Ok data => complete_results_shape data
  | Throw _ => false
  end.
Proof.
  unfold isValidCompleteResults, complete_results_shape, present.
  destruct (JSON_parse (content f)) as [data | e]; [| reflexivity].
  destruct data; try reflexivity.
  cbn [bind catch_false JS.get field JS.and_then].
  unfold JS.and_then.
  repeat match goal with
         | |- context [JS.truthy_value ?v] =>
             destruct (JS.truthy_value v); simpl; try reflexivity
         end.
Qed.

Lemma has_all_keys_object (keys : list string) (ps : list (string * JSON)) :
  has_all_keys keys (JObj ps) = Ok (object_with keys (Some (JObj ps))).
Proof.
  induction keys as [| k keys IH]; [reflexivity |].
  cbn [has_all_keys JS.has_key bind]. rewrite IH. simpl.
  destruct (JS.lookup k ps); reflexivity.
Qed.

(** What [x && 'k' in x && ...] comes to: true on an object with the keys, a
    TypeError on a truthy primitive, false on anything else. *)
Lemma guarded_keys (k : string) (keys : list string) (x : JsValue) :
  catch_false (guarded x (has_all_keys (k :: keys))) = object_with (k :: keys) x
  /\ (truthy_primitive x = true ->
      exists e, guarded x (has_all_keys (k :: keys)) = Throw e)
  /\ (truthy_primitive x = false ->
      guarded x (has_all_keys (k :: keys)) = Ok (object_with (k :: keys) x)).
Proof.
  destruct x as [j |]; [destruct j as [| b | x | s | items | ps] |];
    unfold guarded; cbn [truthy_primitive JS.truthy];
    try rewrite has_all_keys_object;
    try match goal with
        | |- context [JS.and_then ?c _] =>
            lazymatch c with
            | true => fail
            | false => fail
            | _ => destruct c
            end
        end;
    repeat split; intros; try discriminate; try reflexivity;
    eexists; reflexivity.
Qed.

Lemma first_of_has_object (p k : string) (ps : list (string * JSON)) :
  first_of_has p k (JObj ps)
  = guarded (first_element (when_truthy (JS.lookup p ps))) (has_all_keys [k]).
Proof.
  unfold first_of_has, when_truthy. cbn [JS.get bind].
  destruct (JS.lookup p ps) as [a |]; [| reflexivity].
  unfold guarded at 1, JS.and_then. cbn [JS.truthy_value].
  destruct (JS.truthy a) eqn:Ha; [| reflexivity].
  destruct a as [| b | x | s | items | qs]; try discriminate; reflexivity.
Qed.

Lemma isValidFaceAnalysis_shape (f : File) :
  isValidFaceAnalysis f =
  match JSON_parse (Str.slice0 2000 (content f)) with
  | Ok data => face_shape data
  | Throw _ => false
  end.
Proof.
  unfold isValidFaceAnalysis.
  destruct (JSON_parse (Str.slice0 2000 (content f))) as [data | e]; [| reflexivity].
  destruct data as [| b | x | s | items | ps]; try reflexivity.
  - destruct items as [| x rest]; [reflexivity |].
    cbn [bind length Nat.eqb JS.or_else hd_error face_shape].
    apply guarded_keys.
  - cbn [bind face_shape]. rewrite !first_of_has_object.
    set (a0 := first_element (when_truthy (JS.lookup "annotations" ps))).
    set (r0 := first_element (when_truthy (JS.lookup "results" ps))).
    destruct (guarded_keys "face_id" [] a0) as [_ [Ha1 Ha2]].
    destruct (truthy_primitive a0) eqn:Hp.
    + destruct (Ha1 eq_refl) as [e ->]. simpl.
      destruct a0 as [[| | | | |] |]; try discriminate; reflexivity.
    + rewrite (Ha2 eq_refl). cbn [bind negb andb].
      destruct (object_with ["face_id"] a0); [reflexivity |].
      cbn [JS.or_else orb]. apply guarded_keys.
Qed.

(** C6 (amended). isValidCompleteResults parses the whole content and matches
    exactly when the value has truthy video_path, pipeline_results, config
    and start_time and a total_duration that is not undefined, a parse
    failure counting as no match; detectJSONType decides on it before it
    reads any prefix, and a match is complete_results at 0.95 whatever the
    other sniffers would say. *)
Theorem isValidCompleteResults_decides :
  (forall f : File,
     isValidCompleteResults f = true <->
     exists data, JSON_parse (content f) = Ok data
                  /\ complete_results_shape data = true)
  /\ (forall f : File,
        isValidCompleteResults f = true ->
        detectJSONType f = detected f complete_results 0.95).
Proof.
  split; intro f.
  - rewrite isValidCompleteResults_shape.
    destruct (JSON_parse (content f)) as [data | e].
    + split; [intro H; now exists data | intros [d [Hd H]]; now inversion Hd; subst].
    + split; [discriminate | intros [d [Hd _]]; discriminate].
  - intro H. unfold detectJSONType. now rewrite H.
Qed.

(** C7 (amended). isValidFaceAnalysis matches exactly when the 2000-byte
    prefix parses as JSON and the value is an empty array, an array whose
    first element is an object with face_id and attributes, or an object
    whose annotations[0] is an object with face_id, or whose annotations[0]
    is no truthy primitive and whose results[0] is an object with face_id;
    a file that reaches the face check of detectJSONType and matches is
    classified face_analysis at 0.8. *)
Theorem isValidFaceAnalysis_decides :
  (forall f : File,
     isValidFaceAnalysis f = true <->
     exists data, JSON_parse (Str.slice0 2000 (content f)) = Ok data
                  /\ face_shape data = true)
  /\ (forall (f : File) (sample : JSON),
        isValidCompleteResults f = false ->
        JSON_parse (Str.slice0 5000 (content f)) = Ok sample ->
        isValidFaceAnalysis f = true ->
        detectJSONType f = detected f face_analysis 0.8).
Proof.
  split.
  - intro f. rewrite isValidFaceAnalysis_shape.
    destruct (JSON_parse (Str.slice0 2000 (content f))) as [data | e].
    + split; [intro H; now exists data | intros [d [Hd H]]; now inversion Hd; subst].
    + split; [discriminate | intros [d [Hd _]]; discriminate].
  - intros f sample Hc Hs Hf. unfold detectJSONType. now rewrite Hc, Hs, Hf.
Qed.

End SnifferFacts.

(** ** Tactics for the merge engine *)

(** Reads the fields of a state that is written out. *)
Ltac state_fields :=
  cbn [warnings pipelinesFound videoFile audioFile personTracking
       speechRecognition speakerDiarization sceneDetection faceAnalysis
       processingConfig processingTime totalDuration processedFiles events
       set_videoFile set_audioFile set_personTracking set_speechRecognition
       set_speakerDiarization set_sceneDetection set_faceAnalysis
       set_processingConfig set_processingTime set_totalDuration
       warn found count_file log fst snd FileType_eqb].

(** Unfolds one iteration and splits on the type of the entry, on the slot
    test and on what the decoder returns. *)
Ltac iteration cb d :=
  unfold merge_file, merge_switch, decode_into, onProgress;
  destruct cb; (let Ht := fresh "Htype" in destruct (type d) eqn:Ht);
  state_fields;
  repeat match goal with
         | |- context [if length_is0 ?v then _ else _] =>
             let Hz := fresh "Hempty" in destruct (length_is0 v) eqn:Hz
         end;
  repeat match goal with
         | |- context [match ?dec (file d) with Ok _ => _ | Throw _ => _ end] =>
             destruct (dec (file d))
         end;
  state_fields.

(** Splits the first block on the callback, on what parseCompleteResults
    returns and on what each length test does. *)
Ltac first_block l cb :=
  unfold state_before_loop, merge_complete_results, complete_results_block,
    if_length_gt0, next, onProgress, initial_state;
  let crf := fresh "crf" in
  let Hfirst := fresh "Hfirst" in
  destruct (first_complete_results l) as [crf |] eqn:Hfirst;
  [ destruct cb;
    (let Hp := fresh "Hparse" in
     destruct (parseCompleteResults (file crf)) eqn:Hp);
    cbn [ok_of]; state_fields;
    repeat match goal with
           | |- context [JS.truthy ?v] =>
               let Ht := fresh "Htruthy" in
               destruct (JS.truthy v) eqn:Ht; state_fields
           | |- context [match length_gt0 ?v with _ => _ end] =>
               let Hg := fresh "Htest" in
               destruct (length_gt0 v) as [[|] |] eqn:Hg; state_fields
           end
  | state_fields ].



(** ** The merge engine *)

Section MergeFacts.
Context {B : Builtins} {C : Collaborators}.

Lemma merge_each_snoc cb t l d st :
  merge_each cb t (l ++ [d]) st = merge_file cb t d (merge_each cb t l st).
Proof. unfold merge_each. now rewrite fold_left_app. Qed.

(** The loop is the iteration over the entries that are not the object
    found before it. *)
Lemma merge_loop_each heap cb t k : forall l st,
  merge_loop heap cb t k l st
  = merge_each cb t
      (entries heap (filter (fun f => negb (same_object f k)) l)) st.
Proof.
  induction l as [| f l IH]; intro st; [reflexivity |].
  cbn [merge_loop filter].
  destruct (same_object f k); cbn [negb entries map merge_each fold_left];
    apply IH.
Qed.

Lemma first_complete_results_entries heap l :
  first_complete_results (entries heap l)
  = option_map heap (find_complete_results heap l).
Proof.
  unfold first_complete_results, find_complete_results, entries.
  induction l as [| f l IH]; [reflexivity |].
  cbn [map find]. destruct (FileType_eqb (type (heap f)) complete_results);
    [reflexivity | exact IH].
Qed.

Lemma entries_length heap l : length (entries heap l) = length l.
Proof. apply length_map. Qed.

Lemma first_address_eq heap l : first_address heap l = find_complete_results heap l.
Proof. reflexivity. Qed.

Lemma filter_all (A : Type) (l : list A) : filter (fun _ => true) l = l.
Proof. induction l as [| x l IH]; [reflexivity |]. cbn. now rewrite IH. Qed.

(** The entries of the loop are those the test of the loop lets through. *)
Lemma loop_entries_eq heap l :
  loop_entries heap l
  = entries heap
      (filter (fun f => negb (same_object f (find_complete_results heap l))) l).
Proof.
  unfold loop_entries. rewrite first_address_eq.
  destruct (find_complete_results heap l); cbn [same_object negb];
    [reflexivity | now rewrite filter_all].
Qed.

(** mergeAnnotationData is the first block, then the loop over the other
    entries, then the part after the loop. *)
Lemma merge_files_eq heap (l : list Address) (cb : bool) :
  merge_files heap l cb
  = merge_each cb (length l) (loop_entries heap l)
      (state_before_loop (entries heap l) cb).
Proof.
  rewrite loop_entries_eq. unfold merge_files, state_before_loop.
  rewrite merge_loop_each, first_complete_results_entries, entries_length.
  destruct (find_complete_results heap l); reflexivity.
Qed.

Lemma FileType_eqb_eq (a b : FileType) : FileType_eqb a b = true <-> a = b.
Proof. destruct a, b; cbn; split; intro H; try reflexivity; discriminate. Qed.

Lemma find_complete_results_found heap l f :
  find_complete_results heap l = Some f ->
  In f l /\ type (heap f) = complete_results.
Proof.
  intro H. apply find_some in H. destruct H as [Hin Ht].
  split; [exact Hin | now apply FileType_eqb_eq].
Qed.

(** The entries the loop skips are of type complete_results. *)
Lemma loop_entries_filter heap (t : FileType) (l : list Address) :
  t <> complete_results ->
  filter (fun d => FileType_eqb (type d) t) (loop_entries heap l)
  = filter (fun d => FileType_eqb (type d) t) (entries heap l).
Proof.
  intro Ht. rewrite loop_entries_eq.
  destruct (find_complete_results heap l) as [k |] eqn:Hk.
  - apply find_complete_results_found in Hk. destruct Hk as [_ Hk].
    clear - Ht Hk. unfold entries. induction l as [| f l IH]; [reflexivity |].
    cbn [filter same_object map] in *.
    destruct (Nat.eqb_spec f k) as [-> | Hne]; cbn [negb map filter].
    + rewrite Hk.
      destruct (FileType_eqb complete_results t) eqn:E; [| exact IH].
      apply FileType_eqb_eq in E. now elim Ht.
    + now rewrite IH.
  - cbn [same_object negb]. now rewrite filter_all.
Qed.


(** Every entry is the object found before the loop or an entry of the
    loop. *)
Lemma loop_entries_or heap (l : list Address) (f : Address) :
  In f l ->
  find_complete_results heap l = Some f \/ In (heap f) (loop_entries heap l).
Proof.
  intro Hin. rewrite loop_entries_eq.
  destruct (same_object f (find_complete_results heap l)) eqn:E.
  - left. destruct (find_complete_results heap l) as [k |]; [| discriminate].
    cbn in E. apply Nat.eqb_eq in E. now subst.
  - right. apply in_map. apply filter_In. split; [exact Hin | now rewrite E].
Qed.

Lemma filter_other_length (k : Address) (l : list Address) :
  length (filter (fun f => negb (f =? k)%nat) l) + count_occ Nat.eq_dec l k
  = length l.
Proof.
  induction l as [| f l IH]; [reflexivity |].
  cbn [filter count_occ length].
  destruct (Nat.eqb_spec f k) as [-> | Hne]; cbn [negb length].
  - destruct (Nat.eq_dec k k); [lia | contradiction].
  - destruct (Nat.eq_dec f k); [contradiction | lia].
Qed.

(** How many entries the loop processes: all but the listings of the object
    found before it. *)
Lemma loop_entries_length heap (l : list Address) :
  length (loop_entries heap l)
  + match find_complete_results heap l with
    | Some completeResultsFile => count_occ Nat.eq_dec l completeResultsFile
    | None => 0
    end
  = length l.
Proof.
  rewrite loop_entries_eq, entries_length.
  destruct (find_complete_results heap l) as [k |]; cbn [same_object].
  - apply filter_other_length.
  - cbn [negb]. now rewrite Nat.add_0_r, filter_all.
Qed.

(** When the references of the array are distinct, the loop processes all
    the entries but one. *)
Lemma loop_entries_length_distinct heap (l : list Address) :
  NoDup l ->
  length (loop_entries heap l)
  = match first_complete_results (entries heap l) with
    | Some _ => length l - 1
    | None => length l
    end.
Proof.
  intro Hnd. pose proof (loop_entries_length heap l) as H.
  rewrite first_complete_results_entries.
  destruct (find_complete_results heap l) as [k |] eqn:Hk; cbn [option_map];
    [| lia].
  apply find_complete_results_found in Hk. destruct Hk as [Hin _].
  rewrite (proj1 (NoDup_count_occ' Nat.eq_dec l) Hnd k Hin) in H. lia.
Qed.



(** *** One iteration *)

Lemma merge_file_processed cb t d st :
  processedFiles (merge_file cb t d st) = S (processedFiles st).
Proof. iteration cb d; reflexivity. Qed.

Lemma merge_file_video cb t d st :
  videoFile (merge_file cb t d st)
  = if FileType_eqb (type d) video then Some (file d) else videoFile st.
Proof. iteration cb d; reflexivity. Qed.

Lemma progress_calls_app (l1 l2 : list Event) :
  progress_calls (l1 ++ l2) = progress_calls l1 + progress_calls l2.
Proof. unfold progress_calls. now rewrite filter_app, length_app. Qed.

(** The calls of the callback an iteration adds: one, for its entry, with
    the count of the files done before it. *)
Lemma merge_file_ticks cb t d st :
  filter is_progress (events (merge_file cb t d st))
  = filter is_progress (events st)
    ++ (if cb then [Progress ("Processing " ++ name (file d)) (processedFiles st) t]
        else []).
Proof.
  iteration cb d; rewrite ?filter_app; cbn [filter is_progress];
    rewrite ?app_nil_r, <- ?app_assoc; reflexivity.
Qed.



(** *** The loop *)

Lemma merge_each_cons cb t d l st :
  merge_each cb t (d :: l) st = merge_each cb t l (merge_file cb t d st).
Proof. reflexivity. Qed.


Lemma last_video_snoc (l : list DetectedFile) (d : DetectedFile) :
  last_video (l ++ [d])
  = if FileType_eqb (type d) video then Some (file d) else last_video l.
Proof.
  unfold last_video. rewrite filter_app, rev_app_distr. simpl.
  destruct (FileType_eqb (type d) video); reflexivity.
Qed.

Lemma merge_each_video cb t st : forall l,
  videoFile (merge_each cb t l st)
  = match last_video l with
    | Some f => Some f
    | None => videoFile st
    end.
Proof.
  induction l as [| d l IH] using rev_ind; [reflexivity |].
  rewrite merge_each_snoc, merge_file_video, last_video_snoc, IH.
  destruct (FileType_eqb (type d) video); reflexivity.
Qed.

Lemma merge_each_ticks cb t : forall l st,
  filter is_progress (events (merge_each cb t l st))
  = filter is_progress (events st)
    ++ (if cb then ticks t (processedFiles st) l else []).
Proof.
  induction l as [| d l IH]; intro st.
  - cbn. destruct cb; now rewrite app_nil_r.
  - rewrite merge_each_cons, IH, merge_file_ticks, merge_file_processed.
    destruct cb; rewrite <- ?app_assoc; reflexivity.
Qed.



Lemma ticks_length t n l : length (ticks t n l) = length l.
Proof. revert n. induction l as [| d l IH]; intro n; cbn; [| rewrite IH]; reflexivity. Qed.

Lemma ticks_progress t n l : filter is_progress (ticks t n l) = ticks t n l.
Proof. revert n. induction l as [| d l IH]; intro n; cbn; [| rewrite IH]; reflexivity. Qed.

Lemma ticks_app t n l1 l2 :
  ticks t n (l1 ++ l2) = ticks t n l1 ++ ticks t (n + length l1) l2.
Proof.
  revert n. induction l1 as [| d l1 IH]; intro n; cbn [ticks app length].
  - now rewrite Nat.add_0_r.
  - rewrite IH. now replace (S n + length l1) with (n + S (length l1)) by lia.
Qed.

Lemma ticks_in t n l d :
  In d l -> exists k, In (Progress ("Processing " ++ name (file d)) k t) (ticks t n l).
Proof.
  revert n. induction l as [| x l IH]; intros n Hd; [contradiction |].
  destruct Hd as [-> | Hd].
  - exists n. now left.
  - destruct (IH (S n) Hd) as [k Hk]. exists k. now right.
Qed.


(** Membership in the events, through their progress calls. *)
Lemma in_progress (evs : list Event) stage p t :
  In (Progress stage p t) evs <-> In (Progress stage p t) (filter is_progress evs).
Proof. rewrite filter_In. cbn. tauto. Qed.

(** *** The first block *)

Lemma bundle_slot_throw (l : list DetectedFile) q :
  bundle_of l = None -> bundle_slot q l = JArr [].
Proof. unfold bundle_slot. now intros ->. Qed.

(** The slots, the video and the audio file when the loop starts. *)
Lemma state_before_loop_slots l cb :
  personTracking (state_before_loop l cb) = bundle_slot person_tracking l
  /\ faceAnalysis (state_before_loop l cb) = bundle_slot face_analysis l
  /\ sceneDetection (state_before_loop l cb) = bundle_slot scene_detection l
  /\ speechRecognition (state_before_loop l cb) = JArr []
  /\ speakerDiarization (state_before_loop l cb) = JArr []
  /\ videoFile (state_before_loop l cb) = None
  /\ audioFile (state_before_loop l cb) = None.
Proof.
  unfold bundle_slot, bundle_of.
  first_block l cb; cbn [ok_of]; repeat split; reflexivity.
Qed.

(** When no length test throws, the first block leaves the state the loop
    is described from. *)
Lemma state_before_loop_quiet l cb :
  bundle_length_error l = None -> state_before_loop l cb = quiet_state l cb.
Proof.
  unfold bundle_length_error, bundle_slot, bundle_of, quiet_state, length_error,
    passes, failure_warning.
  first_block l cb; cbn [ok_of]; intro H;
    repeat match goal with
           | Hg : length_gt0 ?v = _ |- _ => rewrite Hg in *
           end; try discriminate; reflexivity.
Qed.

Lemma state_before_loop_ticks l cb :
  filter is_progress (events (state_before_loop l cb))
  = if cb
    then ticks (length l) 0
           match first_complete_results l with
           | Some completeResultsFile => [completeResultsFile]
           | None => []
           end
    else [].
Proof. first_block l cb; try reflexivity. now destruct cb. Qed.


(** *** The length tests *)

Lemma float_pos_nonzero (x : float) :
  PrimFloat.ltb 0 x = true -> PrimFloat.eqb x 0 = false.
Proof.
  rewrite ltb_spec, eqb_spec.
  change (Prim2SF 0) with (S754_zero false).
  destruct (Prim2SF x) as [s | s | | s m e]; simpl; try destruct s;
    try discriminate; reflexivity.
Qed.

(** A slot that passes [length > 0] fails [length === 0]. *)
Lemma length_gt0_not_is0 (v : JSON) :
  length_gt0 v = Ok true -> length_is0 v = false.
Proof.
  destruct v as [| b | x | s | items | ps]; cbn [length_gt0 length_is0];
    try discriminate.
  - destruct (String.length s); [discriminate | reflexivity].
  - destruct (length items); [discriminate | reflexivity].
  - destruct (JS.lookup "length" ps) as [[| b | x | s | items | qs] |];
      try reflexivity.
    intro H. inversion H. now apply float_pos_nonzero.
Qed.

(** A slot on which [length > 0] throws fails [length === 0]: the loop
    leaves it as it is. *)
Lemma length_error_not_is0 (v : JSON) (e : Thrown) :
  length_error v = Some e -> length_is0 v = false.
Proof.
  unfold length_error.
  destruct v as [| b | x | s | items | ps]; cbn [length_gt0 length_is0];
    try discriminate.
  destruct (JS.lookup "length" ps) as [[| b | x | s | items | qs] |];
    try reflexivity; discriminate.
Qed.


Lemma length_is0_no_error (v : JSON) :
  length_is0 v = true -> length_error v = None.
Proof.
  destruct (length_error v) as [e |] eqn:E; [| reflexivity].
  apply length_error_not_is0 in E. congruence.
Qed.

Lemma length_error_array (records : list JSON) : length_error (JArr records) = None.
Proof. reflexivity. Qed.

Lemma passes_array (records : list JSON) : passes (JArr records) = nonempty records.
Proof. reflexivity. Qed.

Lemma passes_ok (v : JSON) : length_gt0 v = Ok true <-> passes v = true.
Proof.
  unfold passes. destruct (length_gt0 v) as [[|] | e]; split; intro H;
    try reflexivity; discriminate.
Qed.

Lemma passes_not_is0 (v : JSON) : passes v = true -> length_is0 v = false.
Proof. intro H. apply length_gt0_not_is0. now apply passes_ok. Qed.

(** What [attach] returns when it returns. *)
Lemma attach_ok (v : JSON) (key : option JSON) :
  attach v = Ok key -> key = attached v /\ length_error v = None.
Proof.
  unfold attach, attached, passes, length_error.
  destruct (length_gt0 v) as [test | e]; cbn [bind]; [| discriminate].
  intro H. inversion H. now split.
Qed.

Lemma attach_error (v : JSON) :
  attach v = match length_error v with
             | Some error => Throw error
             | None => Ok (attached v)
             end.
Proof.
  unfold attach, attached, passes, length_error.
  destruct (length_gt0 v) as [test | e]; reflexivity.
Qed.

(** *** What an iteration does to the slots *)

(** An iteration records its pipeline exactly when it decodes, and touches
    no slot but the one of its type. *)
Lemma merge_file_found cb t d st :
  match decoded d st with
  | Some records =>
      pipelinesFound (merge_file cb t d st)
        = pipelinesFound st ++ [type_name (type d)]
      /\ length_is0 (slot (type d) st) = true
      /\ (tests_slot (type d) = true ->
          slot (type d) (merge_file cb t d st) = JArr records)
      /\ (forall q, q <> type d -> slot q (merge_file cb t d st) = slot q st)
  | None =>
      pipelinesFound (merge_file cb t d st) = pipelinesFound st
      /\ forall q, slot q (merge_file cb t d st) = slot q st
  end.
Proof.
  unfold decoded.
  iteration cb d; cbn [ok_of slot tests_slot];
    repeat split; try reflexivity; try discriminate; try assumption;
    try (intros q; destruct q; try reflexivity; intro Hq; now elim Hq);
    try (intros q Hq; destruct q; try reflexivity; now elim Hq).
Qed.

Lemma FileType_eq_dec (a b : FileType) : {a = b} + {a <> b}.
Proof. decide equality. Qed.

(** A slot is left as it is, or it was empty and now holds an array. *)
Lemma merge_file_slot cb t d st q :
  slot q (merge_file cb t d st) = slot q st
  \/ (length_is0 (slot q st) = true
      /\ exists records, slot q (merge_file cb t d st) = JArr records).
Proof.
  pose proof (merge_file_found cb t d st) as H.
  destruct (decoded d st) as [records |].
  - destruct H as [_ [Hempty [Hslot Hother]]].
    destruct (FileType_eq_dec q (type d)) as [-> | Hne]; [| left; now apply Hother].
    destruct (tests_slot (type d)) eqn:Ht.
    + right. split; [exact Hempty |]. exists records. now apply Hslot.
    + left. destruct (type d); try discriminate; reflexivity.
  - left. apply H.
Qed.

Lemma merge_each_slot_error cb t q : forall l st,
  length_error (slot q (merge_each cb t l st)) = length_error (slot q st).
Proof.
  induction l as [| d l IH]; intro st; [reflexivity |].
  rewrite merge_each_cons, IH.
  destruct (merge_file_slot cb t d st q) as [-> | [Hempty [records ->]]];
    [reflexivity |].
  now rewrite length_error_array, length_is0_no_error.
Qed.


(** The two transcript slots hold arrays. *)
Lemma merge_file_transcripts cb t d st :
  speechRecognition (merge_file cb t d st)
  = match (if FileType_eqb (type d) speech_recognition
           then match parseWebVTT (file d) with
                | Ok records => [records]
                | Throw _ => []
                end
           else []) with
    | records :: _ => JArr records
    | [] => speechRecognition st
    end
  /\ speakerDiarization (merge_file cb t d st)
     = match (if FileType_eqb (type d) speaker_diarization
              then match parseRTTM (file d) with
                   | Ok records => [records]
                   | Throw _ => []
                   end
              else []) with
       | records :: _ => JArr records
       | [] => speakerDiarization st
       end.
Proof. iteration cb d; split; reflexivity. Qed.

Lemma merge_each_transcript_arrays cb t : forall l st,
  (exists records, speechRecognition st = JArr records) ->
  (exists records, speakerDiarization st = JArr records) ->
  (exists records, speechRecognition (merge_each cb t l st) = JArr records)
  /\ (exists records, speakerDiarization (merge_each cb t l st) = JArr records).
Proof.
  induction l as [| d l IH]; intros st H1 H2; [now split |].
  rewrite merge_each_cons.
  destruct (merge_file_transcripts cb t d st) as [E1 E2].
  apply IH.
  - rewrite E1. destruct (FileType_eqb (type d) speech_recognition);
      [destruct (parseWebVTT (file d)) |]; eauto.
  - rewrite E2. destruct (FileType_eqb (type d) speaker_diarization);
      [destruct (parseRTTM (file d)) |]; eauto.
Qed.

(** *** After the loop *)

Lemma no_video_last (l : list DetectedFile) :
  has_type video l = false <-> last_video l = None.
Proof.
  unfold has_type, last_video.
  induction l as [| d l IH] using rev_ind; [simpl; split; reflexivity |].
  rewrite existsb_app, filter_app, rev_app_distr. simpl.
  destruct (FileType_eqb (type d) video); simpl.
  - rewrite orb_true_r. split; discriminate.
  - rewrite orb_false_r. exact IH.
Qed.

Lemma merge_files_video heap l cb :
  videoFile (merge_files heap l cb) = last_video (entries heap l).
Proof.
  rewrite merge_files_eq, merge_each_video.
  destruct (state_before_loop_slots (entries heap l) cb) as [_ [_ [_ [_ [_ [-> _]]]]]].
  unfold last_video. rewrite loop_entries_filter by discriminate.
  destruct (rev _); reflexivity.
Qed.

(** The length tests that follow the loop throw on the results of the
    bundle that cannot be tested, and on nothing else. *)
Lemma merge_files_finish_error heap l cb :
  finish_error (merge_files heap l cb) = bundle_length_error (entries heap l).
Proof.
  rewrite merge_files_eq. unfold finish_error, bundle_length_error.
  set (st0 := state_before_loop (entries heap l) cb).
  set (t := length l). set (rest := loop_entries heap l).
  destruct (state_before_loop_slots (entries heap l) cb)
    as [Hp [Hf [Hs [Hsr [Hsd _]]]]]. fold st0 in Hp, Hf, Hs, Hsr, Hsd.
  pose proof (merge_each_slot_error cb t person_tracking rest st0) as Ep.
  pose proof (merge_each_slot_error cb t face_analysis rest st0) as Ef.
  pose proof (merge_each_slot_error cb t scene_detection rest st0) as Es.
  cbn [slot] in Ep, Ef, Es. rewrite Ep, Ef, Es, Hp, Hf, Hs.
  destruct (merge_each_transcript_arrays cb t rest st0) as [[r1 ->] [r2 ->]];
    [now exists [] | now exists [] |].
  now rewrite !length_error_array.
Qed.

(** What a merge that returns has read off the state the loop ended in. *)
Lemma merge_finish_ok cb t st r :
  fst (merge_finish cb t st) = Ok r ->
  Report.filesProcessed (Report.metadata r) = processedFiles st
  /\ Report.pipelinesFound (Report.metadata r) = pipelinesFound st
  /\ Report.warnings (Report.metadata r) = warnings st
  /\ Annotation.pipelines (Annotation.metadata (Report.data r)) = pipelinesFound st
  /\ Annotation.person_tracking (Report.data r) = attached (personTracking st)
  /\ Annotation.speech_recognition (Report.data r) = attached (speechRecognition st)
  /\ Annotation.speaker_diarization (Report.data r) = attached (speakerDiarization st)
  /\ Annotation.scene_detection (Report.data r) = attached (sceneDetection st)
  /\ Annotation.face_analysis (Report.data r) = attached (faceAnalysis st)
  /\ finish_error st = None.
Proof.
  unfold merge_finish, onProgress, finish_error.
  destruct (videoFile st) as [vf |]; [| discriminate].
  destruct (extractVideoInfo vf); [| discriminate].
  rewrite !attach_error.
  destruct cb; state_fields;
    destruct (length_error (personTracking st)); [discriminate | | discriminate |];
    destruct (length_error (speechRecognition st)); [discriminate | | discriminate |];
    destruct (length_error (speakerDiarization st)); [discriminate | | discriminate |];
    destruct (length_error (sceneDetection st)); [discriminate | | discriminate |];
    destruct (length_error (faceAnalysis st)); [discriminate | | discriminate |];
    cbn; intro H; inversion H; cbn; repeat split; reflexivity.
Qed.

(** The merge fails in three ways only. *)
Lemma merge_finish_result cb t st :
  match videoFile st with
  | None =>
      merge_finish cb t st = (Throw (ErrorObject "No video file provided"), events st)
  | Some vf =>
      match load_video vf with
      | LoadError =>
          fst (merge_finish cb t st)
          = Throw (ErrorObject "Failed to load video metadata")
      | LoadedMetadata _ _ _ =>
          match finish_error st with
          | Some error => fst (merge_finish cb t st) = Throw error
          | None => exists r, fst (merge_finish cb t st) = Ok r
          end
      end
  end.
Proof.
  unfold merge_finish, extractVideoInfo, finish_error, onProgress.
  destruct (videoFile st) as [vf |]; [| reflexivity].
  destruct (load_video vf); [| reflexivity].
  rewrite !attach_error.
  destruct cb; state_fields;
    (destruct (length_error (personTracking st)); [reflexivity |]);
    (destruct (length_error (speechRecognition st)); [reflexivity |]);
    (destruct (length_error (speakerDiarization st)); [reflexivity |]);
    (destruct (length_error (sceneDetection st)); [reflexivity |]);
    (destruct (length_error (faceAnalysis st)); [reflexivity |]);
    eexists; reflexivity.
Qed.

(** In a merge that returns no length test has thrown, and the loop has
    started in the state described. *)
Lemma merge_ok_quiet heap l cb r :
  fst (mergeAnnotationData heap l cb) = Ok r ->
  bundle_length_error (entries heap l) = None
  /\ merge_files heap l cb
     = merge_each cb (length l) (loop_entries heap l)
         (quiet_state (entries heap l) cb).
Proof.
  intro H. apply merge_finish_ok in H.
  destruct H as [_ [_ [_ [_ [_ [_ [_ [_ [_ H]]]]]]]]].
  rewrite merge_files_finish_error in H. split; [exact H |].
  now rewrite merge_files_eq, state_before_loop_quiet.
Qed.


(** *** The calls of the callback and the count of the files *)

Lemma merge_files_ticks heap l cb :
  filter is_progress (events (merge_files heap l cb))
  = if cb
    then ticks (length l) 0
           match first_complete_results (entries heap l) with
           | Some completeResultsFile => [completeResultsFile]
           | None => []
           end
         ++ ticks (length l)
              (processedFiles (state_before_loop (entries heap l) cb))
              (loop_entries heap l)
    else [].
Proof.
  rewrite merge_files_eq, merge_each_ticks, state_before_loop_ticks.
  rewrite entries_length. now destruct cb.
Qed.

Lemma merge_files_progress heap l :
  progress_calls (events (merge_files heap l true))
  = length (loop_entries heap l)
    + match first_complete_results (entries heap l) with
      | Some _ => 1
      | None => 0
      end.
Proof.
  unfold progress_calls. rewrite merge_files_ticks, length_app, !ticks_length.
  destruct (first_complete_results (entries heap l)); cbn [length]; lia.
Qed.

(** With the object found before the loop listed once, the loop processes
    all the entries but that one. *)
Lemma loop_entries_length_once heap l :
  listed_once heap l ->
  length (loop_entries heap l)
  + match first_complete_results (entries heap l) with
    | Some _ => 1
    | None => 0
    end
  = length l.
Proof.
  unfold listed_once. rewrite first_address_eq.
  intro H. pose proof (loop_entries_length heap l) as Hl.
  rewrite first_complete_results_entries.
  destruct (find_complete_results heap l); cbn [option_map]; lia.
Qed.


Lemma merge_files_tick heap l f :
  In f l ->
  exists n, In (Progress ("Processing " ++ name (file (heap f))) n (length l))
              (events (merge_files heap l true)).
Proof.
  intro Hin.
  assert (H : exists n,
            In (Progress ("Processing " ++ name (file (heap f))) n (length l))
               (filter is_progress (events (merge_files heap l true)))).
  { rewrite merge_files_ticks.
    destruct (loop_entries_or heap l f Hin) as [Hk | Hloop].
    - exists 0. apply in_or_app. left.
      rewrite first_complete_results_entries, Hk. now left.
    - destruct (ticks_in (length l)
                  (processedFiles (state_before_loop (entries heap l) true))
                  _ _ Hloop) as [n Hn].
      exists n. apply in_or_app. now right. }
  destruct H as [n Hn]. exists n. now apply in_progress.
Qed.

(** C1. When no entry of the input is of type video, mergeAnnotationData
    fails with the error "No video file provided" and returns no record, and
    it does so after the loop: by then the callback has been called for
    every entry of the input, once for the complete-results object and once
    for each of the other entries, which is once per entry when the
    complete-results object is listed once. *)
Theorem merge_without_video (heap : Heap) (detectedFiles : list Address)
  (cb : bool) :
  has_type video (entries heap detectedFiles) = false ->
  fst (mergeAnnotationData heap detectedFiles cb)
    = Throw (ErrorObject "No video file provided")
  /\ (forall r, fst (mergeAnnotationData heap detectedFiles cb) <> Ok r)
  /\ progress_calls (snd (mergeAnnotationData heap detectedFiles true))
     = length (loop_entries heap detectedFiles)
       + match first_complete_results (entries heap detectedFiles) with
         | Some _ => 1
         | None => 0
         end
  /\ (listed_once heap detectedFiles ->
      progress_calls (snd (mergeAnnotationData heap detectedFiles true))
      = length detectedFiles)
  /\ (forall f, In f detectedFiles ->
        exists n, In (Progress ("Processing " ++ name (file (heap f))) n
                        (length detectedFiles))
                    (snd (mergeAnnotationData heap detectedFiles true))).
Proof.
  intro Hv. apply no_video_last in Hv.
  assert (Hres : forall cb', mergeAnnotationData heap detectedFiles cb'
            = (Throw (ErrorObject "No video file provided"),
               events (merge_files heap detectedFiles cb'))).
  { intro cb'. unfold mergeAnnotationData.
    pose proof (merge_finish_result cb' (length detectedFiles)
                  (merge_files heap detectedFiles cb')) as H.
    now rewrite merge_files_video, Hv in H. }
  rewrite !Hres. cbn [fst snd]. split; [reflexivity |].
  split; [discriminate |]. split; [apply merge_files_progress |]. split.
  - intro Honce. rewrite merge_files_progress.
    now apply loop_entries_length_once.
  - intros f Hf. now apply merge_files_tick.
Qed.


(** C4. The record mergeAnnotationData returns holds no empty array under
    person_tracking, speech_recognition, speaker_diarization, scene_detection
    or face_analysis: a key is set only from a slot whose length is positive,
    and is left out when the slot is empty. *)
Theorem no_empty_pipeline_key (heap : Heap) (detectedFiles : list Address)
  (cb : bool) (r : Report.ParseResult) :
  fst (mergeAnnotationData heap detectedFiles cb) = Ok r ->
  let st := merge_files heap detectedFiles cb in
  let keys := [ (personTracking st, Annotation.person_tracking (Report.data r));
                (speechRecognition st, Annotation.speech_recognition (Report.data r));
                (speakerDiarization st, Annotation.speaker_diarization (Report.data r));
                (sceneDetection st, Annotation.scene_detection (Report.data r));
                (faceAnalysis st, Annotation.face_analysis (Report.data r)) ] in
  Forall (fun sk : JSON * option JSON =>
            snd sk <> Some (JArr [])
            /\ (fst sk = JArr [] -> snd sk = None)
            /\ (forall v, snd sk = Some v -> v = fst sk /\ length_gt0 v = Ok true))
         keys.
Proof.
  intro H. apply merge_finish_ok in H.
  destruct H as [_ [_ [_ [_ [H1 [H2 [H3 [H4 [H5 _]]]]]]]]].
  cbv zeta. rewrite H1, H2, H3, H4, H5.
  assert (Hattach : forall slot,
            attached slot <> Some (JArr [])
            /\ (slot = JArr [] -> attached slot = None)
            /\ (forall v, attached slot = Some v -> v = slot /\ length_gt0 v = Ok true)).
  { intro slot. unfold attached. destruct (passes slot) eqn:E.
    - split; [| split].
      + intro Heq. inversion Heq; subst. discriminate.
      + intros ->. discriminate.
      + intros v Hv. inversion Hv; subst. split; [reflexivity |].
        now apply passes_ok.
    - split; [discriminate | split; [reflexivity | discriminate]]. }
  repeat (apply Forall_cons; [cbn [fst snd]; apply Hattach |]).
  apply Forall_nil.
Qed.

(** *** Failures and warnings *)






(** *** Which files are decoded *)











(** *** Precedence of the complete-results bundle *)











(** *** How often a pipeline is recorded as found *)











End MergeFacts.

(** * Further properties of the code *)

(** ** Validation and summary *)

Lemma Set_has_types (t : FileType) (l : list DetectedFile) :
  Set_has t (map type l) = has_type t l.
Proof.
  unfold Set_has, has_type. induction l as [| d l IH]; [reflexivity |].
  cbn [map existsb]. rewrite IH. f_equal. destruct t, (type d); reflexivity.
Qed.

Lemma bears_pipeline_types (l : list DetectedFile) :
  has_type person_tracking l || has_type speech_recognition l
  || has_type speaker_diarization l || has_type scene_detection l
  || has_type face_analysis l || has_type complete_results l
  = existsb bears_pipeline l.
Proof.
  unfold has_type. induction l as [| d l IH]; [reflexivity |].
  cbn [existsb]. rewrite <- IH. unfold bears_pipeline.
  destruct (type d); cbn [FileType_eqb orb]; rewrite ?orb_true_r; reflexivity.
Qed.

Lemma validateFileSet_accepts_aux (l : list DetectedFile) :
  isValid (validateFileSet l) = has_type video l && existsb bears_pipeline l
  /\ missing (validateFileSet l)
     = (if has_type video l then [] else ["Video file"])
       ++ (if existsb bears_pipeline l then [] else ["Pipeline data"]).
Proof.
  unfold validateFileSet. rewrite !Set_has_types, bears_pipeline_types.
  destruct (has_type video l), (existsb bears_pipeline l); split; reflexivity.
Qed.

(** X1. validateFileSet accepts a file set exactly when it has an entry of
    type video and an entry of one of the six pipeline-bearing types; it
    names what is missing, video first, with one suggestion per missing
    item. *)
Theorem validateFileSet_accepts (detectedFiles : list DetectedFile) :
  isValid (validateFileSet detectedFiles)
    = has_type video detectedFiles && existsb bears_pipeline detectedFiles
  /\ missing (validateFileSet detectedFiles)
     = (if has_type video detectedFiles then [] else ["Video file"])
       ++ (if existsb bears_pipeline detectedFiles then [] else ["Pipeline data"])
  /\ length (suggestions (validateFileSet detectedFiles))
     = length (missing (validateFileSet detectedFiles)).
Proof.
  unfold validateFileSet. rewrite !Set_has_types, bears_pipeline_types.
  destruct (has_type video detectedFiles), (existsb bears_pipeline detectedFiles);
    repeat split; reflexivity.
Qed.

Lemma summary_video (l : list DetectedFile) :
  FilesSummary.video (getFilesSummary l) = last_name_of video l.
Proof.
  induction l as [| d l IH] using rev_ind; [reflexivity |].
  rewrite getFilesSummary_snoc, last_name_of_snoc. unfold summary_step.
  destruct (type d); cbn; try exact IH; reflexivity.
Qed.

Lemma summary_pipelines_length (l : list DetectedFile) :
  length (FilesSummary.pipelines (getFilesSummary l))
  = length (filter bears_pipeline l).
Proof.
  induction l as [| d l IH] using rev_ind; [reflexivity |].
  rewrite getFilesSummary_snoc, filter_app, length_app. cbn [filter].
  replace (bears_pipeline d)
    with (match type d with video | audio | unknown => false | _ => true end)
    by reflexivity.
  unfold summary_step, summary_push_pipeline.
  destruct (type d);
    cbn [FilesSummary.pipelines filter length]; rewrite ?length_app;
    cbn [length]; lia.
Qed.

Lemma summary_unknown_length (l : list DetectedFile) :
  length (FilesSummary.unknown (getFilesSummary l)) = count_type unknown l.
Proof.
  unfold count_type.
  induction l as [| d l IH] using rev_ind; [reflexivity |].
  rewrite getFilesSummary_snoc, filter_app, length_app. cbn [filter].
  unfold summary_step, summary_push_pipeline.
  destruct (type d);
    cbn [FilesSummary.unknown filter length FileType_eqb]; rewrite ?length_app;
    cbn [length]; lia.
Qed.

Lemma last_name_of_none (t : FileType) (l : list DetectedFile) :
  last_name_of t l = None <-> has_type t l = false.
Proof.
  unfold has_type.
  induction l as [| d l IH] using rev_ind; [cbn; split; reflexivity |].
  rewrite last_name_of_snoc, existsb_app. cbn [existsb].
  destruct (FileType_eqb (type d) t).
  - rewrite orb_true_r. split; discriminate.
  - rewrite !orb_false_r. exact IH.
Qed.

Lemma filter_nil_existsb (A : Type) (p : A -> bool) (l : list A) :
  filter p l = [] <-> existsb p l = false.
Proof.
  induction l as [| x l IH]; [cbn; split; reflexivity |].
  cbn. destruct (p x); cbn; [split; discriminate | exact IH].
Qed.

(** X2. The two views agree: validateFileSet accepts a file set exactly when
    the summary names a video and lists at least one pipeline entry. *)
Theorem validateFileSet_agrees_with_summary (detectedFiles : list DetectedFile) :
  isValid (validateFileSet detectedFiles) = true <->
  FilesSummary.video (getFilesSummary detectedFiles) <> None
  /\ FilesSummary.pipelines (getFilesSummary detectedFiles) <> [].
Proof.
  destruct (validateFileSet_accepts_aux detectedFiles) as [-> _].
  rewrite summary_video, andb_true_iff.
  assert (Hv : has_type video detectedFiles = true
               <-> last_name_of video detectedFiles <> None).
  { rewrite last_name_of_none. destruct (has_type video detectedFiles);
      split; try discriminate; try reflexivity; intro H; now elim H. }
  assert (Hp : existsb bears_pipeline detectedFiles = true
               <-> FilesSummary.pipelines (getFilesSummary detectedFiles) <> []).
  { pose proof (summary_pipelines_length detectedFiles) as Hlen.
    pose proof (filter_nil_existsb bears_pipeline detectedFiles) as Hnil.
    destruct (existsb bears_pipeline detectedFiles).
    - split; [| reflexivity]. intros _ Hempty. rewrite Hempty in Hlen.
      destruct (filter bears_pipeline detectedFiles); [| discriminate].
      destruct Hnil as [Hnil _]. now specialize (Hnil eq_refl).
    - split; [discriminate |]. intro Hne. exfalso. apply Hne.
      destruct Hnil as [_ Hnil]. rewrite (Hnil eq_refl) in Hlen.
      now destruct (FilesSummary.pipelines (getFilesSummary detectedFiles)). }
  now rewrite Hv, Hp.
Qed.

(** X3. The summary accounts for every entry: the pipeline entries, the
    unknown names and the video and audio entries (of which only the last of
    each kind is named) add up to the length of the input. *)
Theorem getFilesSummary_accounts (detectedFiles : list DetectedFile) :
  length (FilesSummary.pipelines (getFilesSummary detectedFiles))
  + length (FilesSummary.unknown (getFilesSummary detectedFiles))
  + count_type video detectedFiles + count_type audio detectedFiles
  = length detectedFiles.
Proof.
  rewrite summary_pipelines_length, summary_unknown_length.
  unfold count_type.
  induction detectedFiles as [| d l IH]; [reflexivity |].
  cbn [filter length].
  replace (bears_pipeline d)
    with (match type d with video | audio | unknown => false | _ => true end)
    by reflexivity.
  destruct (type d); cbn [FileType_eqb length]; lia.
Qed.

(** ** The classifier and the sniffers *)

Section ClassifierMore.
Context {B : Builtins}.

(** Splits on every test a classification makes. *)
Ltac classification :=
  unfold detectFileType, detectJSONType;
  repeat match goal with
         | |- context [if ?b then _ else _] =>
             let E := fresh "E" in destruct b eqn:E
         | |- context [match JSON_parse ?t with _ => _ end] =>
             let E := fresh "E" in destruct (JSON_parse t) eqn:E
         end.

(** X4. A classification result keeps its file; it carries the name of its
    type as pipeline label exactly when the type is one of the six
    pipeline-bearing ones; and its type is unknown exactly when its
    confidence is at most 0.2, so every recognised file has confidence 0.3
    or more. *)
Theorem detectFileType_labels (f : File) :
  file (detectFileType f) = f
  /\ pipeline (detectFileType f)
     = (if bears_pipeline (detectFileType f)
        then Some (type_name (type (detectFileType f))) else None)
  /\ is_unknown (detectFileType f)
     = PrimFloat.leb (confidence (detectFileType f)) 0.2.
Proof.
  classification;
    cbn [bears_pipeline type detected detected_plain] in *; try discriminate;
    repeat split; vm_compute; reflexivity.
Qed.

Lemma detectJSONType_not_media (f : File) :
  type (detectJSONType f) <> video /\ type (detectJSONType f) <> audio.
Proof. classification; split; discriminate. Qed.

Lemma detectFileType_video (f : File) :
  type (detectFileType f) = video <-> video_by_name f = true.
Proof.
  pose proof (detectJSONType_not_media f) as [Hv _].
  unfold detectFileType, video_by_name.
  repeat match goal with
         | |- context [if ?b then _ else _] =>
             let E := fresh "E" in destruct b eqn:E
         end; cbn [type detected detected_plain];
    split; intro H; try discriminate; try reflexivity; try contradiction.
Qed.

Lemma detectFileType_audio (f : File) :
  type (detectFileType f) = audio
  <-> video_by_name f = false /\ audio_by_name f = true.
Proof.
  pose proof (detectJSONType_not_media f) as [_ Ha].
  unfold detectFileType, video_by_name, audio_by_name.
  repeat match goal with
         | |- context [if ?b then _ else _] =>
             let E := fresh "E" in destruct b eqn:E
         end; cbn [type detected detected_plain];
    split; intro H; try discriminate; try (split; reflexivity);
    try contradiction; destruct H; discriminate.
Qed.

(** X5. Whether a file is a video or an audio file is decided by its name
    and MIME type alone, video first: the content is not read, and the
    result is the same, at confidence 0.95, whatever the file holds. *)
Theorem media_by_name_only (f : File) :
  (type (detectFileType f) = video <-> video_by_name f = true)
  /\ (type (detectFileType f) = audio
      <-> video_by_name f = false /\ audio_by_name f = true)
  /\ (video_by_name f || audio_by_name f = true ->
      forall text,
        type (detectFileType (with_content f text)) = type (detectFileType f)
        /\ confidence (detectFileType (with_content f text)) = 0.95%float
        /\ pipeline (detectFileType (with_content f text)) = None).
Proof.
  split; [apply detectFileType_video |]. split; [apply detectFileType_audio |].
  intros H text.
  unfold detectFileType. cbn [name mime with_content].
  fold (video_by_name f). fold (audio_by_name f).
  destruct (video_by_name f); [repeat split |].
  cbn [orb] in H. rewrite H. repeat split.
Qed.


(** The classification results are among the nine levels, and the batch is
    sorted by the position of the confidence among them. *)
Lemma batch_sorted_by_rank (files : list File) :
  StronglySorted (fun a b => confidence_rank a <= confidence_rank b)
    (batchDetectFileTypes files).
Proof.
  unfold batchDetectFileTypes.
  apply Array_sort_sorted
    with (good := fun d : DetectedFile => In (confidence d) confidence_levels).
  - intros x y Hx Hy. now apply level_compare.
  - apply Forall_forall. intros d Hd. apply in_map_iff in Hd.
    destruct Hd as [f [<- _]]. apply detectFileType_level.
Qed.

Lemma unknown_rank (f : File) :
  is_unknown (detectFileType f) = (7 <=? confidence_rank (detectFileType f))%nat.
Proof. classification; vm_compute; reflexivity. Qed.

(** A list sorted by rank is the entries below a rank followed by the
    others. *)
Lemma sorted_split (A : Type) (rank : A -> nat) (p : A -> bool) (k : nat)
  (l : list A) :
  StronglySorted (fun a b => rank a <= rank b) l ->
  Forall (fun x => p x = (k <=? rank x)%nat) l ->
  l = filter (fun x => negb (p x)) l ++ filter p l.
Proof.
  intros Hs Hp. induction Hs as [| x l Hs IH Hx]; [reflexivity |].
  inversion Hp as [| ? ? Hpx Hpl]; subst. cbn [filter].
  destruct (p x) eqn:Ex; cbn [negb app].
  - assert (Hall : Forall (fun y => p y = true) l).
    { rewrite Forall_forall in *. intros y Hy. rewrite (Hpl y Hy).
      symmetry in Hpx. apply Nat.leb_le in Hpx. apply Nat.leb_le.
      specialize (Hx y Hy). lia. }
    assert (Hnone : filter (fun y => negb (p y)) l = []).
    { clear - Hall. induction Hall as [| y l Hy _ IH]; [reflexivity |].
      cbn. now rewrite Hy. }
    assert (Hsame : filter p l = l).
    { clear - Hall. induction Hall as [| y l Hy _ IH]; [reflexivity |].
      cbn. now rewrite Hy, IH. }
    now rewrite Hnone, Hsame.
  - f_equal. now apply IH.
Qed.

(** X6. batchDetectFileTypes loses and repeats no file, and puts the files
    it could not recognise last: its result is the recognised entries
    followed by the entries of type unknown. *)
Theorem batchDetectFileTypes_unknown_last (files : list File) :
  Permutation (map file (batchDetectFileTypes files)) files
  /\ batchDetectFileTypes files
     = filter (fun d => negb (is_unknown d)) (batchDetectFileTypes files)
       ++ filter is_unknown (batchDetectFileTypes files).
Proof.
  split.
  - eapply Permutation_trans.
    + apply Permutation_map. unfold batchDetectFileTypes. apply Array_sort_perm.
    + rewrite map_map.
      assert (H : map (fun f => file (detectFileType f)) files = files).
      { induction files as [| f l IH]; [reflexivity |]. cbn [map].
        rewrite IH. f_equal. classification; reflexivity. }
      rewrite H. apply Permutation_refl.
  - apply sorted_split with (rank := confidence_rank) (k := 7).
    + apply batch_sorted_by_rank.
    + eapply Permutation_Forall.
      * apply Permutation_sym. unfold batchDetectFileTypes. apply Array_sort_perm.
      * apply Forall_forall. intros d Hd. apply in_map_iff in Hd.
        destruct Hd as [f [<- _]]. apply unknown_rank.
Qed.

Lemma has_any_keys_object (keys : list string) (ps : list (string * JSON)) :
  has_any_key keys (JObj ps) = Ok (object_with_any keys (Some (JObj ps))).
Proof.
  induction keys as [| k keys IH]; [reflexivity |].
  cbn [has_any_key JS.has_key bind]. rewrite IH. cbn.
  destruct (JS.lookup k ps); reflexivity.
Qed.

Lemma has_any_keys_array (keys : list string) (items : list JSON) :
  has_any_key keys (JArr items) = Ok false.
Proof.
  induction keys as [| k keys IH]; [reflexivity |].
  cbn [has_any_key JS.has_key bind JS.or_else]. exact IH.
Qed.

Lemma guarded_any_keys (k : string) (keys : list string) (x : JsValue) :
  catch_false (guarded x (has_any_key (k :: keys))) = object_with_any (k :: keys) x.
Proof.
  destruct x as [j |]; [destruct j as [| b | x | s | items | ps] |];
    unfold guarded; cbn [JS.truthy];
    try rewrite has_any_keys_object; try rewrite has_any_keys_array;
    try match goal with
        | |- context [JS.and_then ?c _] =>
            lazymatch c with
            | true => fail
            | false => fail
            | _ => destruct c
            end
        end; reflexivity.
Qed.

Lemma has_array_object (p : string) (ps : list (string * JSON)) :
  has_array p (JObj ps) = Ok (array_value (JS.lookup p ps)).
Proof.
  unfold has_array. cbn [JS.get bind].
  destruct (JS.lookup p ps) as [[| b | x | s | items | qs] |]; cbn;
    rewrite ?andb_false_r; reflexivity.
Qed.

Lemma isValidCOCOPersonData_shape (f : File) :
  isValidCOCOPersonData f =
  match JSON_parse (Str.slice0 2000 (content f)) with
  | Ok data => coco_shape data
  | Throw _ => false
  end.
Proof.
  unfold isValidCOCOPersonData.
  destruct (JSON_parse (Str.slice0 2000 (content f))) as [data | e]; [| reflexivity].
  destruct data as [| b | x | s | items | ps]; try reflexivity.
  - destruct items as [| x rest]; [reflexivity |].
    cbn [bind length Nat.eqb JS.or_else hd_error coco_shape].
    apply guarded_keys.
  - cbn [bind coco_shape]. rewrite !has_array_object. cbn [bind].
    destruct (array_value (JS.lookup "annotations" ps)); reflexivity.
Qed.

Lemma isValidSceneDetection_shape (f : File) :
  isValidSceneDetection f =
  match JSON_parse (Str.slice0 2000 (content f)) with
  | Ok data => scene_shape data
  | Throw _ => false
  end.
Proof.
  unfold isValidSceneDetection.
  destruct (JSON_parse (Str.slice0 2000 (content f))) as [data | e]; [| reflexivity].
  destruct data as [| b | x | s | items | ps]; try reflexivity.
  - destruct items as [| x rest]; [reflexivity |].
    cbn [bind length Nat.eqb JS.or_else hd_error scene_shape].
    apply guarded_any_keys.
  - cbn [bind scene_shape]. rewrite !has_array_object, first_of_has_object.
    cbn [bind].
    destruct (array_value (JS.lookup "results" ps)); [reflexivity |].
    cbn [JS.or_else orb bind].
    destruct (array_value (JS.lookup "scenes" ps)); [reflexivity |].
    cbn [JS.or_else orb]. apply guarded_keys.
Qed.

(** X7. What the person-tracking and scene sniffers accept. The COCO sniffer
    matches exactly when the 2000-byte prefix parses to an empty array, an
    array whose first element is an object with keypoints and bbox, or an
    object whose annotations or results is an array; the scene sniffer
    exactly when it parses to an empty array, an array whose first element
    is an object with start_time or startTime, or an object whose results or
    scenes is an array or whose annotations[0] is an object with scene_type.
    A prefix that does not parse matches neither. *)
Theorem person_and_scene_sniffers (f : File) :
  (isValidCOCOPersonData f = true <->
   exists data, JSON_parse (Str.slice0 2000 (content f)) = Ok data
                /\ coco_shape data = true)
  /\ (isValidSceneDetection f = true <->
      exists data, JSON_parse (Str.slice0 2000 (content f)) = Ok data
                   /\ scene_shape data = true).
Proof.
  rewrite isValidCOCOPersonData_shape, isValidSceneDetection_shape.
  destruct (JSON_parse (Str.slice0 2000 (content f))) as [data | e]; split; split;
    try discriminate;
    try (intro H; now exists data);
    intros [d [Hd H]]; try discriminate; now inversion Hd; subst.
Qed.

(** X8. A file whose prefix parses to an object with a results array or an
    annotations array is taken by the COCO sniffer, which runs before the
    scene sniffer: detectJSONType never classifies such a file as
    scene_detection, although the scene sniffer accepts the results
    layout. *)
Theorem results_layout_never_scene (f : File) (ps : list (string * JSON)) :
  JSON_parse (Str.slice0 2000 (content f)) = Ok (JObj ps) ->
  array_value (JS.lookup "annotations" ps)
    || array_value (JS.lookup "results" ps) = true ->
  isValidCOCOPersonData f = true
  /\ type (detectJSONType f) <> scene_detection
  /\ (array_value (JS.lookup "results" ps) = true ->
      isValidSceneDetection f = true).
Proof.
  intros Hp Ha.
  assert (Hc : isValidCOCOPersonData f = true)
    by (rewrite isValidCOCOPersonData_shape, Hp; exact Ha).
  split; [exact Hc |]. split.
  - unfold detectJSONType. rewrite Hc.
    repeat match goal with
           | |- context [if ?b then _ else _] => destruct b
           | |- context [match JSON_parse ?t with _ => _ end] => destruct (JSON_parse t)
           end; discriminate.
  - intro Hr. rewrite isValidSceneDetection_shape, Hp. cbn [scene_shape].
    now rewrite Hr.
Qed.

End ClassifierMore.

(** ** The extractor and the face decoder *)

Section ExtractorMore.
Context {B : Builtins}.

(** What parseCompleteResults does on a file the complete-results sniffer
    accepts. *)
Lemma accepted_bundle_extracts (f : File) :
  isValidCompleteResults f = true ->
  exists data pr,
    JSON_parse (content f) = Ok data
    /\ field "pipeline_results" data = Some pr
    /\ field "config" data <> None
    /\ field "total_duration" data <> None
    /\ parseCompleteResults f
       = (processingTime <-
            reduce add_processing_time (Object_values pr) (JNum 0) ;;
          Ok {| Bundle.personTracking :=
                  or_default (JS.get_opt "results" (field "person" pr)) (JArr []);
                Bundle.faceAnalysis :=
                  or_default (JS.get_opt "results" (field "face" pr)) (JArr []);
                Bundle.sceneDetection :=
                  or_default (JS.get_opt "results" (field "scene" pr)) (JArr []);
                Bundle.config := field "config" data;
                Bundle.processingTime := processingTime;
                Bundle.totalDuration := field "total_duration" data |}).
Proof.
  rewrite isValidCompleteResults_shape. unfold parseCompleteResults.
  destruct (JSON_parse (content f)) as [data | e]; [| discriminate].
  unfold complete_results_shape, present. intro H.
  repeat (apply andb_prop in H; destruct H as [H ?]).
  destruct data as [| b | x | s | items | ps]; try discriminate.
  cbn [field] in *. cbn [bind JS.get].
  destruct (JS.lookup "pipeline_results" ps) as [pr |] eqn:Epr; [| discriminate].
  cbn [JS.truthy_value] in *.
  exists (JObj ps), pr. cbn [field].
  split; [reflexivity |]. split; [exact Epr |].
  split; [destruct (JS.lookup "config" ps); discriminate |].
  split; [destruct (JS.lookup "total_duration" ps); discriminate |].
  unfold section_results.
  destruct pr; try discriminate; cbn [JS.get bind field]; reflexivity.
Qed.

(** X9. On a file the complete-results sniffer accepts, parseCompleteResults
    fails in one way only: the sum of the processing times throws, on an
    operand that cannot be converted. Otherwise it returns the results of
    the three sections (an empty array for a section that has none), the
    sum, and the config and total_duration of the file, both defined. *)
Theorem sniffed_bundle_parses (f : File) :
  isValidCompleteResults f = true ->
  exists data pr,
    JSON_parse (content f) = Ok data
    /\ field "pipeline_results" data = Some pr
    /\ match reduce add_processing_time (Object_values pr) (JNum 0) with
       | Throw error => parseCompleteResults f = Throw error
       | Ok processingTime =>
           exists completeResults,
             parseCompleteResults f = Ok completeResults
             /\ Bundle.personTracking completeResults
                = or_default (JS.get_opt "results" (field "person" pr)) (JArr [])
             /\ Bundle.faceAnalysis completeResults
                = or_default (JS.get_opt "results" (field "face" pr)) (JArr [])
             /\ Bundle.sceneDetection completeResults
                = or_default (JS.get_opt "results" (field "scene" pr)) (JArr [])
             /\ Bundle.processingTime completeResults = processingTime
             /\ Bundle.config completeResults = field "config" data
             /\ Bundle.totalDuration completeResults = field "total_duration" data
             /\ Bundle.config completeResults <> None
             /\ Bundle.totalDuration completeResults <> None
       end.
Proof.
  intro H. destruct (accepted_bundle_extracts _ H)
    as [data [pr [Hd [Hpr [Hc [Ht Hp]]]]]].
  exists data, pr. split; [exact Hd |]. split; [exact Hpr |].
  rewrite Hp.
  destruct (reduce add_processing_time (Object_values pr) (JNum 0));
    cbn [bind]; [| reflexivity].
  eexists. split; [reflexivity |]. cbn. repeat split; assumption.
Qed.

(** X10. parseFaceAnalysis throws exactly when the content does not parse or
    parses to null. Otherwise it returns the array itself, or the array
    under annotations, or else the array under results, or else no
    record. *)
Theorem parseFaceAnalysis_results (f : File) :
  ((exists e, parseFaceAnalysis f = Throw e) <->
   (exists e, JSON_parse (content f) = Throw e)
   \/ JSON_parse (content f) = Ok JNull)
  /\ (forall items,
        JSON_parse (content f) = Ok (JArr items) ->
        parseFaceAnalysis f = Ok items)
  /\ (forall ps,
        JSON_parse (content f) = Ok (JObj ps) ->
        parseFaceAnalysis f
        = Ok (match JS.lookup "annotations" ps, JS.lookup "results" ps with
              | Some (JArr items), _ => items
              | _, Some (JArr items) => items
              | _, _ => []
              end)).
Proof.
  unfold parseFaceAnalysis.
  destruct (JSON_parse (content f)) as [data | e].
  - split; [| split].
    + destruct data as [| b | x | s | items | ps]; cbn [bind JS.get].
      * split; [right; reflexivity | eexists; reflexivity].
      * split; [intros [e He]; discriminate | intros [[e He] | He]; discriminate].
      * split; [intros [e He]; discriminate | intros [[e He] | He]; discriminate].
      * split; [intros [e He]; discriminate | intros [[e He] | He]; discriminate].
      * split; [intros [e He]; discriminate | intros [[e He] | He]; discriminate].
      * split; [| intros [[e He] | He]; discriminate].
        intros [e He].
        destruct (JS.lookup "annotations" ps) as [[| | | | |] |];
          destruct (JS.lookup "results" ps) as [[| | | | |] |]; discriminate.
    + intros items H. inversion H; subst. reflexivity.
    + intros ps H. inversion H; subst. cbn [bind JS.get].
      destruct (JS.lookup "annotations" ps) as [[| | | | |] |];
        destruct (JS.lookup "results" ps) as [[| | | | |] |]; reflexivity.
  - split; [| split]; try discriminate.
    split; [intros _; left; now exists e | intros _; now exists e].
Qed.

End ExtractorMore.

(** ** More on the merge engine *)

Section MergeMore.
Context {B : Builtins} {C : Collaborators}.

(** *** Which video and which audio file *)







(** *** Validation, batch classification and the missing-video failure *)




(** *** How many warnings *)








(** *** The metadata carried over from the bundle *)




(** *** The progress callback *)





(** *** Which decode ends up in the record *)








(** *** The record and the list of pipelines *)

Lemma merge_file_payloads cb t d st :
  payloads_found st -> payloads_found (merge_file cb t d st).
Proof.
  unfold payloads_found. intro H.
  iteration cb d; intros q Hq; rewrite ?in_app_iff;
    destruct q; cbn [payload] in Hq;
    cbn [personTracking speechRecognition speakerDiarization sceneDetection
         faceAnalysis] in Hq; try discriminate;
    match goal with
    | |- In (type_name ?q0) _ \/ _ =>
        first [ solve [left; apply (H q0); exact Hq] | solve [right; cbn; auto] ]
    | |- In (type_name ?q0) _ => apply (H q0); exact Hq
    end.
Qed.

Lemma merge_each_payloads cb t : forall l st,
  payloads_found st -> payloads_found (merge_each cb t l st).
Proof.
  induction l as [| d l IH]; intros st H; [exact H |].
  rewrite merge_each_cons. apply IH. now apply merge_file_payloads.
Qed.

Lemma quiet_state_payloads l cb : payloads_found (quiet_state l cb).
Proof.
  unfold payloads_found, quiet_state, initial_state.
  destruct (first_complete_results l) as [crf |].
  - destruct (parseCompleteResults (file crf)) as [cr | e].
    + intros q Hq. destruct q; cbn [payload personTracking speechRecognition
        speakerDiarization sceneDetection faceAnalysis] in Hq;
        try discriminate; apply passes_ok in Hq;
        cbn [pipelinesFound]; rewrite Hq, !in_app_iff; cbn; auto.
    + intros q Hq. destruct q; discriminate.
  - intros q Hq. destruct q; discriminate.
Qed.

(** X19. Every pipeline key the record carries is named in the list of
    pipelines found, in the report and in the record's metadata. *)
Theorem record_keys_are_listed (heap : Heap) (detectedFiles : list Address)
  (cb : bool) (r : Report.ParseResult) :
  fst (mergeAnnotationData heap detectedFiles cb) = Ok r ->
  forall q v,
    record_key q (Report.data r) = Some v ->
    In (type_name q) (Report.pipelinesFound (Report.metadata r))
    /\ In (type_name q)
         (Annotation.pipelines (Annotation.metadata (Report.data r))).
Proof.
  intros H q v Hv. destruct (merge_ok_quiet _ _ _ H) as [_ Hq].
  apply merge_finish_ok in H.
  destruct H as [_ [-> [_ [-> [H1 [H2 [H3 [H4 [H5 _]]]]]]]]].
  assert (Hfound : payloads_found (merge_files heap detectedFiles cb)).
  { rewrite Hq. apply merge_each_payloads, quiet_state_payloads. }
  assert (Hin : In (type_name q)
                  (pipelinesFound (merge_files heap detectedFiles cb))).
  { apply Hfound. apply passes_ok.
    destruct q; cbn [record_key] in Hv; try discriminate; cbn [payload];
      match goal with
      | Hk : ?key = attached ?slot, Hv : ?key = Some _ |- passes ?slot = true =>
          rewrite Hk in Hv; unfold attached in Hv;
          destruct (passes slot); [reflexivity | discriminate]
      end. }
  now split.
Qed.

(** *** A bundle recognised by its content *)


End MergeMore.

(** ** The job wizard *)

Section WizardFacts.
Variable Config : Type.
Variable submitJob : File -> list string -> Config -> Result string.
Variable handleAPIError : Thrown -> string.

Lemma click_step (st : Wizard.State Config) (c : Wizard.Click) :
  1 <= Wizard.currentStep st <= 4 ->
  1 <= Wizard.currentStep (Wizard.click st c) <= 4
  /\ Wizard.selectedFiles (Wizard.click st c) = Wizard.selectedFiles st
  /\ Wizard.selectedPipelines (Wizard.click st c) = Wizard.selectedPipelines st.
Proof.
  intro H. destruct c; cbn [Wizard.click]; unfold Wizard.nextStep, Wizard.prevStep.
  - change (length Wizard.STEPS) with 4.
    destruct (Nat.ltb_spec (Wizard.currentStep st) 4); cbn; repeat split; lia.
  - destruct (Nat.ltb_spec 1 (Wizard.currentStep st)); cbn; repeat split; lia.
Qed.

(** X21. Whatever sequence of Next and Previous clicks the wizard receives,
    its step stays between 1 and 4, so the step it shows always exists; Next
    on the last step and Previous on the first change nothing, and no click
    changes the selected files or pipelines. *)
Theorem wizard_step_in_range (st : Wizard.State Config)
  (clicks : list Wizard.Click) :
  1 <= Wizard.currentStep st <= 4 ->
  let st' := fold_left Wizard.click clicks st in
  1 <= Wizard.currentStep st' <= 4
  /\ nth_error Wizard.STEPS (Wizard.currentStep st' - 1) <> None
  /\ Wizard.selectedFiles st' = Wizard.selectedFiles st
  /\ Wizard.selectedPipelines st' = Wizard.selectedPipelines st
  /\ (Wizard.currentStep st = 4 -> Wizard.nextStep st = st)
  /\ (Wizard.currentStep st = 1 -> Wizard.prevStep st = st).
Proof.
  intro H. cbv zeta.
  assert (Hrun : 1 <= Wizard.currentStep (fold_left Wizard.click clicks st) <= 4
                 /\ Wizard.selectedFiles (fold_left Wizard.click clicks st)
                    = Wizard.selectedFiles st
                 /\ Wizard.selectedPipelines (fold_left Wizard.click clicks st)
                    = Wizard.selectedPipelines st).
  { revert st H. induction clicks as [| c clicks IH]; intros st H; [auto |].
    cbn [fold_left]. destruct (click_step st c H) as [Hc [Hf Hp]].
    destruct (IH _ Hc) as [Hc' [Hf' Hp']]. rewrite Hf', Hp'. auto. }
  destruct Hrun as [Hc [Hf Hp]].
  split; [exact Hc |]. split.
  - apply nth_error_Some. change (length Wizard.STEPS) with 4. lia.
  - split; [exact Hf |]. split; [exact Hp |]. split; intro E.
    + unfold Wizard.nextStep. now rewrite E.
    + unfold Wizard.prevStep. now rewrite E.
Qed.

Lemma mem_In (s : string) (l : list string) : Str.mem s l = true <-> In s l.
Proof.
  unfold Str.mem. rewrite existsb_exists. split.
  - intros [x [Hx He]]. apply String.eqb_eq in He. now subst.
  - intro H. exists s. split; [exact H | apply String.eqb_refl].
Qed.

(** X22. togglePipeline flips whether the pipeline is selected and leaves
    the selection of every other pipeline as it was. *)
Theorem togglePipeline_flips (st : Wizard.State Config) (p : string) :
  (In p (Wizard.selectedPipelines (Wizard.togglePipeline p st))
   <-> ~ In p (Wizard.selectedPipelines st))
  /\ (forall q, q <> p ->
        (In q (Wizard.selectedPipelines (Wizard.togglePipeline p st))
         <-> In q (Wizard.selectedPipelines st)))
  /\ Wizard.selectedFiles (Wizard.togglePipeline p st) = Wizard.selectedFiles st
  /\ Wizard.currentStep (Wizard.togglePipeline p st) = Wizard.currentStep st.
Proof.
  unfold Wizard.togglePipeline.
  destruct (Str.mem p (Wizard.selectedPipelines st)) eqn:E; cbn.
  - apply mem_In in E. split; [| split; [| split; reflexivity]].
    + rewrite filter_In, String.eqb_refl. cbn. split; [intros [_ H]; discriminate | tauto].
    + intros q Hq. rewrite filter_In.
      assert (Hne : String.eqb q p = false) by now apply String.eqb_neq.
      rewrite Hne. cbn. tauto.
  - assert (Hn : ~ In p (Wizard.selectedPipelines st)).
    { intro H. apply mem_In in H. congruence. }
    split; [| split; [| split; reflexivity]].
    + rewrite in_app_iff. cbn. tauto.
    + intros q Hq. rewrite in_app_iff. cbn. split; [| tauto].
      intros [H | [H | []]]; [exact H | now elim Hq].
Qed.

Lemma filter_other_index_past (A : Type) (index : nat) : forall (l : list A) i,
  index < i -> Wizard.filter_other_index index i l = l.
Proof.
  induction l as [| x l IH]; intros i Hi; [reflexivity |].
  cbn [Wizard.filter_other_index].
  destruct (Nat.eqb_spec i index); [lia |]. cbn [negb]. now rewrite IH by lia.
Qed.

Lemma filter_other_index_spec (A : Type) (index : nat) : forall (l : list A) i,
  i <= index ->
  Wizard.filter_other_index index i l
  = firstn (index - i) l ++ skipn (S (index - i)) l.
Proof.
  induction l as [| x l IH]; intros i Hi.
  - now rewrite firstn_nil, skipn_nil.
  - cbn [Wizard.filter_other_index]. destruct (Nat.eqb_spec i index) as [-> | Hne].
    + rewrite Nat.sub_diag. cbn [negb firstn skipn app].
      apply filter_other_index_past. lia.
    + cbn [negb]. rewrite IH by lia.
      replace (index - i) with (S (index - S i)) by lia.
      now rewrite firstn_cons, skipn_cons.
Qed.

(** X23. removeFile takes out the file at the given position and keeps the
    others in order: one file fewer when the position is in range, and the
    same list when it is not. *)
Theorem removeFile_at (st : Wizard.State Config) (index : nat) :
  Wizard.selectedFiles (Wizard.removeFile index st)
    = firstn index (Wizard.selectedFiles st)
      ++ skipn (S index) (Wizard.selectedFiles st)
  /\ (index < length (Wizard.selectedFiles st) ->
      S (length (Wizard.selectedFiles (Wizard.removeFile index st)))
      = length (Wizard.selectedFiles st))
  /\ (length (Wizard.selectedFiles st) <= index ->
      Wizard.removeFile index st = st).
Proof.
  assert (H : Wizard.selectedFiles (Wizard.removeFile index st)
              = firstn index (Wizard.selectedFiles st)
                ++ skipn (S index) (Wizard.selectedFiles st)).
  { cbn. rewrite filter_other_index_spec by lia. now rewrite Nat.sub_0_r. }
  split; [exact H |]. split.
  - intro Hi. rewrite H, length_app, length_firstn, length_skipn. lia.
  - intro Hi. unfold Wizard.removeFile.
    rewrite filter_other_index_spec by lia. rewrite Nat.sub_0_r.
    rewrite firstn_all2 by lia. rewrite skipn_all2 by lia. rewrite app_nil_r.
    destruct st; reflexivity.
Qed.

Lemma submit_each_spec pipelines c : forall files jobIds errors,
  exists lines,
    Wizard.submit_each submitJob handleAPIError files pipelines c jobIds errors
    = (jobIds ++ flat_map (fun f => match submitJob f pipelines c with
                                    | Ok id => [id]
                                    | Throw _ => []
                                    end) files,
       errors ++ lines)
    /\ length lines
       = length (filter (fun f => match submitJob f pipelines c with
                                  | Ok _ => false
                                  | Throw _ => true
                                  end) files).
Proof.
  induction files as [| f files IH]; intros jobIds errors.
  - exists []. cbn. now rewrite !app_nil_r.
  - cbn [Wizard.submit_each flat_map filter].
    destruct (submitJob f pipelines c) as [id | e].
    + destruct (IH (jobIds ++ [id]) errors) as [lines [-> Hl]].
      exists lines. now rewrite <- app_assoc.
    + destruct (IH jobIds (errors ++ [(name f ++ ": " ++ handleAPIError e)%string]))
        as [lines [-> Hl]].
      eexists. rewrite <- app_assoc. split; [reflexivity |].
      cbn. now rewrite Hl.
Qed.

Lemma submitted_rejected (st : Wizard.State Config) :
  length (Wizard.submitted submitJob st) + length (Wizard.rejected submitJob st)
  = length (Wizard.selectedFiles st).
Proof.
  unfold Wizard.submitted, Wizard.rejected.
  induction (Wizard.selectedFiles st) as [| f l IH]; [reflexivity |].
  cbn [flat_map filter].
  destruct (submitJob f (Wizard.selectedPipelines st) (Wizard.config st));
    cbn [app length]; lia.
Qed.

(** X24. handleSubmitJobs with no file selected only sets the error "No
    videos selected". Otherwise it submits every selected file once, each on
    its own: the ids of the accepted jobs become submitSuccess, in the order
    of the files, every file is either accepted or rejected, an error is
    shown exactly when a file was rejected, the navigation to the jobs list
    is scheduled exactly when none was, and the wizard is no longer
    submitting; the step, the files and the pipelines are untouched. *)
Theorem handleSubmitJobs_accounts (st : Wizard.State Config) :
  let (st', navigate) := Wizard.handleSubmitJobs submitJob handleAPIError st in
  match Wizard.selectedFiles st with
  | [] =>
      st' = Wizard.setSubmitError (Some "No videos selected") st
      /\ navigate = false
  | _ :: _ =>
      Wizard.submitSuccess st' = Wizard.submitted submitJob st
      /\ length (Wizard.submitted submitJob st)
         + length (Wizard.rejected submitJob st)
         = length (Wizard.selectedFiles st)
      /\ (Wizard.submitError st' = None <-> Wizard.rejected submitJob st = [])
      /\ (navigate = true <-> Wizard.rejected submitJob st = [])
      /\ Wizard.isSubmitting st' = false
      /\ Wizard.currentStep st' = Wizard.currentStep st
      /\ Wizard.selectedFiles st' = Wizard.selectedFiles st
      /\ Wizard.selectedPipelines st' = Wizard.selectedPipelines st
  end.
Proof.
  pose proof (submitted_rejected st) as Hsum.
  unfold Wizard.handleSubmitJobs.
  destruct (Wizard.selectedFiles st) as [| f files] eqn:Hfiles.
  - cbn. split; reflexivity.
  - cbn [length Nat.eqb]. cbn [Wizard.selectedFiles Wizard.selectedPipelines
      Wizard.config Wizard.setSubmitSuccess Wizard.setSubmitError
      Wizard.setIsSubmitting]. rewrite Hfiles.
    destruct (submit_each_spec (Wizard.selectedPipelines st) (Wizard.config st)
                (f :: files) [] []) as [lines [-> Hlines]].
    cbn [app].
    fold (Wizard.rejected submitJob st) in *.
    assert (Hs : flat_map (fun f0 => match submitJob f0 (Wizard.selectedPipelines st)
                                             (Wizard.config st) with
                                     | Ok id => [id]
                                     | Throw _ => []
                                     end) (f :: files)
                 = Wizard.submitted submitJob st)
      by (unfold Wizard.submitted; now rewrite Hfiles).
    assert (Hr : length lines = length (Wizard.rejected submitJob st))
      by (unfold Wizard.rejected; now rewrite Hfiles).
    rewrite Hs. clear Hs Hlines.
    cbn [length] in Hsum.
    destruct (Wizard.submitted submitJob st) as [| id ids];
      destruct lines as [| line lines];
      destruct (Wizard.rejected submitJob st) as [| rf rfs];
      cbn [length] in *; try discriminate; try lia;
      cbn; repeat split; try reflexivity; try discriminate; try lia;
      try exact Hfiles; intro H; discriminate.
Qed.

End WizardFacts.

(** * Worked examples

    The theorems above hold for every implementation of the builtins and of
    the collaborators. The examples below run the program on the files of
    [Sample]; an input is an array of new objects ([store], [references])
    unless it lists an object twice. *)

#[local] Existing Instance Sample.builtins.
#[local] Existing Instance Sample.collaborators.

(** The merge of an array of new objects, and the entries of such an
    array. *)
Local Abbreviation merge_of objects cb :=
  (mergeAnnotationData (store objects) (references objects) cb).
Local Abbreviation listing objects :=
  (entries (store objects) (references objects)).

(** ** Classification *)

(** A bundle whose start_time is the number 0 has all five fields, and
    isValidCompleteResults rejects it: the claim C6 as worded fails. The file
    is still classified complete_results, by its name, at 0.7. *)
Lemma complete_results_start_time_zero :
  JSON_parse (content Sample.bundle_epoch_json) = Ok Sample.bundle_epoch_value
  /\ complete_results_shape_claimed Sample.bundle_epoch_value = true
  /\ isValidCompleteResults Sample.bundle_epoch_json = false
  /\ detectJSONType Sample.bundle_epoch_json
     = detected Sample.bundle_epoch_json complete_results 0.7.
Proof. repeat split; vm_compute; reflexivity. Qed.

Lemma isValidCompleteResults_decides_witness :
  isValidCompleteResults Sample.bundle_empty_json = true
  /\ detectJSONType Sample.bundle_empty_json
     = detected Sample.bundle_empty_json complete_results 0.95.
Proof.
  assert (H : isValidCompleteResults Sample.bundle_empty_json = true)
    by (vm_compute; reflexivity).
  split; [exact H |].
  exact (proj2 (@isValidCompleteResults_decides Sample.builtins) Sample.bundle_empty_json H).
Defined.

(** A file that holds the empty array is matched by isValidFaceAnalysis and
    classified face_analysis at 0.8, though the array has no first element:
    the claim C7 as worded fails. *)
Lemma face_analysis_empty_array :
  JSON_parse (Str.slice0 2000 (content Sample.empty_json)) = Ok (JArr [])
  /\ face_shape_claimed (JArr []) = false
  /\ isValidFaceAnalysis Sample.empty_json = true
  /\ detectJSONType Sample.empty_json
     = detected Sample.empty_json face_analysis 0.8.
Proof. repeat split; vm_compute; reflexivity. Qed.

Lemma isValidFaceAnalysis_decides_witness :
  isValidCompleteResults Sample.faces_json = false
  /\ isValidFaceAnalysis Sample.faces_json = true
  /\ detectJSONType Sample.faces_json
     = detected Sample.faces_json face_analysis 0.8.
Proof.
  assert (H1 : isValidCompleteResults Sample.faces_json = false)
    by (vm_compute; reflexivity).
  assert (H2 : JSON_parse (Str.slice0 5000 (content Sample.faces_json))
               = Ok Sample.faces_value) by (vm_compute; reflexivity).
  assert (H3 : isValidFaceAnalysis Sample.faces_json = true)
    by (vm_compute; reflexivity).
  split; [exact H1 |]. split; [exact H3 |].
  exact (proj2 (@isValidFaceAnalysis_decides Sample.builtins) Sample.faces_json
           Sample.faces_value H1 H2 H3).
Defined.

(** ** Merging *)

(** An array that lists a bundle twice and a transcript once, and no video:
    the merge fails after two calls of the callback, one for the bundle and
    one for the transcript. *)
Lemma merge_without_video_witness :
  has_type video (entries (store MoreSamples.bundle_and_transcript) [0; 0; 1])
    = false
  /\ fst (mergeAnnotationData (store MoreSamples.bundle_and_transcript)
            [0; 0; 1] true)
     = Throw (ErrorObject "No video file provided")
  /\ progress_calls
       (snd (mergeAnnotationData (store MoreSamples.bundle_and_transcript)
               [0; 0; 1] true)) = 2.
Proof.
  assert (H : has_type video
                (entries (store MoreSamples.bundle_and_transcript) [0; 0; 1])
              = false) by reflexivity.
  split; [exact H |].
  destruct (@merge_without_video Sample.builtins Sample.collaborators
              (store MoreSamples.bundle_and_transcript) [0; 0; 1] true H)
    as [H1 [_ [H3 _]]].
  split; [exact H1 |]. rewrite H3. reflexivity.
Defined.





Lemma no_empty_pipeline_key_witness :
  exists r,
    fst (merge_of (Sample.clip_and_transcript Sample.clip_vtt) true) = Ok r
    /\ Annotation.person_tracking (Report.data r) <> Some (JArr [])
    /\ Annotation.speech_recognition (Report.data r) <> Some (JArr []).
Proof.
  eexists. split; [vm_compute; reflexivity |].
  pose proof (@no_empty_pipeline_key Sample.builtins Sample.collaborators
                (store (Sample.clip_and_transcript Sample.clip_vtt)) (references (Sample.clip_and_transcript Sample.clip_vtt))
                true _ ltac:(vm_compute; reflexivity)) as H.
  cbv zeta in H.
  inversion H as [| ? ? [H1 _] H']; subst.
  inversion H' as [| ? ? [H2 _] _]; subst.
  split; [exact H1 | exact H2].
Defined.


(** A bundle whose person-tracking results have a length that cannot be
    converted to a number makes the merge fail too, with the TypeError of a
    length test that follows the loop, although the input has a video that
    loads. *)
Example untestable_bundle_fails :
  has_type video (listing MoreSamples.untestable_input) = true
  /\ @isValidCompleteResults MoreSamples.builtins
       MoreSamples.bundle_untestable_json = true
  /\ fst (@mergeAnnotationData MoreSamples.builtins Sample.collaborators
            (store MoreSamples.untestable_input)
            (references MoreSamples.untestable_input) false)
     = Throw JS.conversion_error.
Proof. repeat split; vm_compute; reflexivity. Qed.




(** ** Further examples *)

Lemma media_by_name_only_witness :
  video_by_name MoreSamples.renamed_mp4 || audio_by_name MoreSamples.renamed_mp4 = true
  /\ type (detectFileType (with_content MoreSamples.renamed_mp4 Sample.faces_text))
     = video.
Proof.
  assert (H : video_by_name MoreSamples.renamed_mp4
              || audio_by_name MoreSamples.renamed_mp4 = true) by reflexivity.
  split; [exact H |].
  destruct (proj2 (proj2 (@media_by_name_only Sample.builtins MoreSamples.renamed_mp4))
              H Sample.faces_text) as [Ht _].
  rewrite Ht. vm_compute. reflexivity.
Defined.

Lemma results_layout_never_scene_witness :
  @isValidSceneDetection MoreSamples.builtins MoreSamples.scenes_json = true
  /\ type (@detectJSONType MoreSamples.builtins MoreSamples.scenes_json)
     <> scene_detection.
Proof.
  assert (H1 : @JSON_parse MoreSamples.builtins
                 (Str.slice0 2000 (content MoreSamples.scenes_json))
               = Ok (JObj [("results", JArr [])])) by (vm_compute; reflexivity).
  assert (H2 : array_value (JS.lookup "annotations" [("results", JArr [])])
               || array_value (JS.lookup "results" [("results", JArr [])]) = true)
    by reflexivity.
  destruct (@results_layout_never_scene MoreSamples.builtins
              MoreSamples.scenes_json _ H1 H2) as [_ [Hn Hs]].
  split; [apply Hs; reflexivity | exact Hn].
Defined.

(** parseCompleteResults returns on a bundle the sniffer accepts, and
    throws on one whose processing times cannot be summed. *)
Lemma sniffed_bundle_parses_witness :
  (exists completeResults,
     parseCompleteResults Sample.bundle_person_json = Ok completeResults
     /\ Bundle.totalDuration completeResults = Some (JNum 120))
  /\ @parseCompleteResults MoreSamples.builtins MoreSamples.bundle_unsummable_json
     = Throw JS.conversion_error.
Proof.
  split.
  - assert (H : isValidCompleteResults Sample.bundle_person_json = true)
      by (vm_compute; reflexivity).
    destruct (@sniffed_bundle_parses Sample.builtins Sample.bundle_person_json H)
      as [data [pr [Hd [Hpr Hsum]]]].
    vm_compute in Hd. inversion Hd; subst data.
    vm_compute in Hpr. inversion Hpr; subst pr.
    vm_compute in Hsum. destruct Hsum as [cr [Hcr [_ [_ [_ [_ [_ [Ht _]]]]]]]].
    exists cr. split; [| exact Ht]. vm_compute. exact Hcr.
  - assert (H : @isValidCompleteResults MoreSamples.builtins
                  MoreSamples.bundle_unsummable_json = true)
      by (vm_compute; reflexivity).
    destruct (@sniffed_bundle_parses MoreSamples.builtins
                MoreSamples.bundle_unsummable_json H)
      as [data [pr [Hd [Hpr Hsum]]]].
    vm_compute in Hd. inversion Hd; subst data.
    vm_compute in Hpr. inversion Hpr; subst pr.
    vm_compute in Hsum. vm_compute. exact Hsum.
Defined.

Lemma parseFaceAnalysis_results_witness :
  parseFaceAnalysis Sample.faces_json
  = Ok [JObj [("face_id", JNum 1); ("attributes", JObj [])]].
Proof.
  apply (proj1 (proj2 (@parseFaceAnalysis_results Sample.builtins Sample.faces_json))).
  vm_compute. reflexivity.
Defined.








Lemma record_keys_are_listed_witness :
  exists r,
    fst (merge_of (Sample.clip_and_transcript Sample.clip_vtt) false) = Ok r
    /\ In "speech_recognition" (Report.pipelinesFound (Report.metadata r)).
Proof.
  eexists. split; [vm_compute; reflexivity |].
  exact (proj1 (@record_keys_are_listed Sample.builtins Sample.collaborators
                  (store (Sample.clip_and_transcript Sample.clip_vtt))
                  (references (Sample.clip_and_transcript Sample.clip_vtt)) false _
                  ltac:(vm_compute; reflexivity) speech_recognition _ eq_refl)).
Defined.


Lemma wizard_step_in_range_witness :
  1 <= Wizard.currentStep MoreSamples.wizard <= 4
  /\ Wizard.currentStep
       (fold_left Wizard.click
          [Wizard.Previous; Wizard.Next; Wizard.Next; Wizard.Next; Wizard.Next;
           Wizard.Next] MoreSamples.wizard) <= 4.
Proof.
  assert (H : 1 <= Wizard.currentStep MoreSamples.wizard <= 4) by (cbn; lia).
  split; [exact H |].
  pose proof (@wizard_step_in_range unit MoreSamples.wizard
                [Wizard.Previous; Wizard.Next; Wizard.Next; Wizard.Next;
                 Wizard.Next; Wizard.Next] H) as H'.
  cbv zeta in H'. destruct H' as [[_ Hle] _]. exact Hle.
Defined.

Lemma removeFile_at_witness :
  0 < length (Wizard.selectedFiles MoreSamples.wizard)
  /\ Wizard.selectedFiles (Wizard.removeFile 0 MoreSamples.wizard)
     = [Sample.empty_mp4].
Proof.
  assert (H : 0 < length (Wizard.selectedFiles MoreSamples.wizard)) by (cbn; lia).
  split; [exact H |].
  rewrite (proj1 (@removeFile_at unit MoreSamples.wizard 0)). reflexivity.
Defined.
